(** * Tauri-Bevy demo: the display client

    A shallow embedding of the two revisions of the Vue display client,

    - [src/src/App.vue]: frames are pulled with the structured call
      [invoke("get_frame")] and arrive Base64-encoded (module [AppVue]);
    - [src/unnamed/part_000]: frames are pulled from the binary resource
      endpoint [http://frame.localhost/frame] and pointer input is relayed
      to the renderer (module [Part000]).

    JavaScript numbers are IEEE-754 binary64 values, modelled by Rocq's
    primitive floats.  An [async] function is a [task]: it runs to its next
    [await], where it hands the pending request and its continuation to the
    event loop; the continuation is resumed with the outcome of the request
    and with the state of the component as it is at that later time. *)

From Stdlib Require Import Floats ZArith NArith String Ascii List Lia.
From stdpp Require Import base option list gmap strings pretty.

Set Warnings "-inexact-float".

Local Open Scope string_scope.
Local Open Scope list_scope.

(** ** JavaScript values of the platform *)

Module JS.

(** [number]: a binary64 float. *)
Definition number : Type := float.

(** [array.length] as a number. *)
Definition of_nat (n : nat) : number :=
  PrimFloat.of_uint63 (Uint63.of_Z (Z.of_nat n)).


(** [a > b] and [a >= b]; both are false when an operand is NaN. *)
Definition gt (a b : number) : bool := PrimFloat.ltb b a.
Definition ge (a b : number) : bool := PrimFloat.leb b a.
Definition lt (a b : number) : bool := PrimFloat.ltb a b.

(** [Math.round]: the integer closest to [x], ties towards +infinity.
    A finite float is [m * 2^e] with a sign; with [e >= 0] it is an integer
    already. *)
Definition Math_round (x : number) : number :=
  match Prim2SF x with
  | S754_finite s m e =>
      if (0 <=? e)%Z then x
      else
        let sm := if s then Z.opp (Z.pos m) else Z.pos m in
        let q := ((2 * sm + 2 ^ (- e)) / 2 ^ (1 - e))%Z in
        if (q =? 0)%Z then (if s then (-0)%float else 0%float)
        else if (q <? 0)%Z then PrimFloat.opp (PrimFloat.of_uint63 (Uint63.of_Z (- q)))
        else PrimFloat.of_uint63 (Uint63.of_Z q)
  | _ => x
  end.

(** A thrown value (what a [catch] clause or a rejected promise carries). *)
Inductive error : Type :=
| Error (message : string)
| DOMException (name message : string)
| Thrown (rendering : string).

(** [Error.prototype.toString], which [DOMException] inherits: the name
    alone when the message is empty, the message alone when the name is
    empty, and [name: message] otherwise. *)
Definition Error_toString (name message : string) : string :=
  if String.eqb name "" then message
  else if String.eqb message "" then name
  else name +:+ ": " +:+ message.

(** [String(error)]; a thrown string is its own rendering. *)
Definition String_of_error (e : error) : string :=
  match e with
  | Error m => Error_toString "Error" m
  | DOMException n m => Error_toString n m
  | Thrown s => s
  end.

(** The outcome of an operation that may throw, or of a settled promise. *)
Inductive result (A : Type) : Type :=
| Ok (a : A)
| Err (e : error).
Arguments Ok {A} a.
Arguments Err {A} e.

(** *** Base64 ([atob])

    [atob] is the forgiving-base64 decode of the HTML standard.  A string
    here is a sequence of 8-bit characters: a binary string, as [atob]
    returns it. *)

Definition is_ascii_whitespace (c : ascii) : bool :=
  let n := N_of_ascii c in
  ((n =? 9) || (n =? 10) || (n =? 12) || (n =? 13) || (n =? 32))%N.

(** The value of a character of the Base64 alphabet. *)
Definition sextet_of_char (c : ascii) : option N :=
  let n := N_of_ascii c in
  if ((65 <=? n) && (n <=? 90))%N then Some (n - 65)%N
  else if ((97 <=? n) && (n <=? 122))%N then Some (n - 71)%N
  else if ((48 <=? n) && (n <=? 57))%N then Some (n + 4)%N
  else if (n =? 43)%N then Some 62%N
  else if (n =? 47)%N then Some 63%N
  else None.

(** Removes a trailing ["="], if there is one. *)
Definition drop_trailing_equals (d : list ascii) : list ascii :=
  match rev d with
  | c :: r => if Ascii.eqb c "="%char then rev r else d
  | [] => d
  end.

(** "If data ends with one or two U+003D (=) code points, remove them." *)
Definition strip_padding (d : list ascii) : list ascii :=
  match rev d with
  | c :: _ => if Ascii.eqb c "="%char then drop_trailing_equals (drop_trailing_equals d) else d
  | [] => d
  end.

(** The bit buffer: every four sextets give three bytes; a rest of two
    sextets gives one byte (the last four bits are dropped), a rest of
    three gives two (the last two bits are dropped). *)
Fixpoint bytes_of_sextets (vs : list N) : list N :=
  match vs with
  | s1 :: s2 :: s3 :: s4 :: rest =>
      let n := (((s1 * 64 + s2) * 64 + s3) * 64 + s4)%N in
      (n / 65536)%N :: ((n / 256) mod 256)%N :: (n mod 256)%N :: bytes_of_sextets rest
  | [s1; s2; s3] =>
      let n := (((s1 * 64 + s2) * 64 + s3) / 4)%N in
      [(n / 256)%N; (n mod 256)%N]
  | [s1; s2] => [((s1 * 64 + s2) / 16)%N]
  | _ => []
  end.

Definition forgiving_base64_decode (data : list ascii) : option (list N) :=
  let d := filter (fun c => is_ascii_whitespace c = false) data in
  let d := if (length d mod 4 =? 0)%nat then strip_padding d else d in
  if (length d mod 4 =? 1)%nat then None
  else bytes_of_sextets <$> mapM sextet_of_char d.

Definition atob (data : string) : result string :=
  match forgiving_base64_decode (list_ascii_of_string data) with
  | Some bytes => Ok (string_of_list_ascii (ascii_of_N <$> bytes))
  | None => Err (DOMException "InvalidCharacterError" "The string to be decoded is not correctly encoded.")
  end.

(** [s.charCodeAt(i)]; NaN out of range, which a typed array stores as 0. *)
Definition charCodeAt (s : string) (i : nat) : option N :=
  N_of_ascii <$> String.get i s.

(** *** Typed arrays and image data *)

(** A [Uint8ClampedArray]: its elements, each in 0..255. *)
Abbreviation Uint8ClampedArray := (list N) (only parsing).

Definition new_Uint8ClampedArray (len : nat) : Uint8ClampedArray := replicate len 0%N.

(** [bytes[i] = v]: the stored value is clamped; the store is ignored out
    of range. *)
Definition store (bytes : Uint8ClampedArray) (i : nat) (v : option N) : Uint8ClampedArray :=
  <[i := N.min (default 0%N v) 255]> bytes.

Record ImageData : Type := mkImageData {
  pixels : Uint8ClampedArray;
  image_width : N;
  image_height : N;
}.

(** The conversion of an integer to the WebIDL type [unsigned long]: the
    value modulo 2^32. *)
Definition ToUint32 (n : N) : N := (n mod 4294967296)%N.

(** [new ImageData(data, sw, sh)]: [sw] and [sh] are [unsigned long]
    arguments, converted before the constructor's steps run. *)
Definition new_ImageData (data : Uint8ClampedArray) (sw sh : N) : result ImageData :=
  let sw := ToUint32 sw in
  let sh := ToUint32 sh in
  let len := N.of_nat (length data) in
  if ((len =? 0) || negb (len mod 4 =? 0))%N then
    Err (DOMException "InvalidStateError" "The input data length is not a non-zero multiple of 4.")
  else
    let px := (len / 4)%N in
    if ((sw =? 0) || negb (px mod sw =? 0))%N then
      Err (DOMException "IndexSizeError" "The input data length is not a multiple of (4 * width).")
    else if negb (px / sw =? sh)%N then
      Err (DOMException "IndexSizeError" "The input data length is not equal to (4 * width * height).")
    else Ok (mkImageData data sw sh).

End JS.

Import JS.

(** ** Data model *)

(** [interface PerformanceStats]: what [get_performance_stats] answers
    (App.vue 31-40, part_000 26-35). *)
Record PerformanceStats : Type := mkPerformanceStats {
  gpu_transfer_ms : number;
  data_processing_ms : number;
  frame_encoding_ms : number;
  bevy_fps : number;
  frame_count : number;
  data_size_kb : number;
  tauri_get_frame_ms : number;
  tauri_serialize_ms : number;
}.

(** [interface FrontendPerf] (App.vue 43-49, part_000 38-44). *)
Record FrontendPerf : Type := mkFrontendPerf {
  tauri_call_ms : number;
  image_create_ms : number;
  canvas_draw_ms : number;
  total_loop_ms : number;
  frontend_fps : number;
}.

(** [interface FrameResponse] (App.vue 24-28).  The dimensions are
    integers: the renderer sends unsigned 32-bit values. *)
Record FrameResponse : Type := mkFrameResponse {
  data : string;
  width : N;
  height : N;
}.

(** The argument record of [invoke("send_mouse_input", ...)]
    (part_000 117-123). *)
Record MouseInput : Type := mkMouseInput {
  deltaX : number;
  deltaY : number;
  scrollDelta : number;
  leftButton : bool;
  rightButton : bool;
}.

(** [const mouseState] (part_000 98-103). *)
Module MouseState.
Record t : Type := mk {
  leftButton : bool;
  rightButton : bool;
  lastX : number;
  lastY : number;
}.
End MouseState.

(** The DOM events the handlers read. *)
Record MouseEvent : Type := mkMouseEvent {
  button : Z;
  clientX : number;
  clientY : number;
}.

Record WheelEvent : Type := mkWheelEvent {
  wheel_deltaY : number;
}.

(** A [fetch] response, the [Blob] of its body and a decoded bitmap. *)
Record Response : Type := mkResponse {
  ok : bool;
  status : N;
  body : list N;
}.

Record Blob : Type := mkBlob {
  blob_bytes : list N;
}.

Record ImageBitmap : Type := mkImageBitmap {
  bitmap_width : N;
  bitmap_height : N;
  bitmap_pixels : list N;
}.

(** The canvas element; [getContext("2d")] answers a context or null. *)
Record Canvas : Type := mkCanvas {
  has_2d_context : bool;
}.

Inductive Context2D : Type := context_2d.

Definition getContext (canvas : Canvas) : option Context2D :=
  if has_2d_context canvas then Some context_2d else None.

(** Calls into the platform that leave a trace: the console, the canvas
    context, and the Base64 decoder. *)
Inductive call : Type :=
| console_error (message : string)
| console_warn (message : string) (e : error)
| call_atob (encoded : string)
| putImageData (image : ImageData) (dx dy : number)
| drawImage (image : ImageBitmap) (dx dy : number)
| bitmap_close (image : ImageBitmap).

(** ** The state

    The variables of the component's script, followed by the part of the
    browser they talk to: the two clocks (an arbitrary sequence of
    readings), the pending animation-frame callbacks, the active interval
    timers and the trace of platform calls.  Every animation-frame callback
    the script registers is [renderLoop] and every interval is
    [updateBackendStats], so a handle stands for its registration. *)
Record World : Type := mkWorld {
  canvasRef : option Canvas;
  isRendering : bool;
  fps : number;
  frameCount : number;
  statusMessage : string;
  errorMessage : string;
  lastErrorTime : number;
  backendStats : PerformanceStats;
  frontendStats : FrontendPerf;
  animationId : option Z;
  fpsFrameCount : number;
  fpsLastUpdate : number;
  frontendPerfSamples : list FrontendPerf;
  mouseState : MouseState.t;
  statsInterval : option Z;
  performance_clock : nat -> number;
  Date_clock : nat -> number;
  clock_reads : nat;
  animation_frames : list Z;
  next_animation_frame : Z;
  intervals : list Z;
  next_interval : Z;
  calls : list call;
}.

(** Assignment to one variable; the others keep their value. *)
Definition set_isRendering (v : bool) (w : World) : World :=
  mkWorld (canvasRef w) v (fps w) (frameCount w) (statusMessage w)
    (errorMessage w) (lastErrorTime w) (backendStats w) (frontendStats w)
    (animationId w) (fpsFrameCount w) (fpsLastUpdate w)
    (frontendPerfSamples w) (mouseState w) (statsInterval w)
    (performance_clock w) (Date_clock w) (clock_reads w) (animation_frames w)
    (next_animation_frame w) (intervals w) (next_interval w) (calls w).
Definition set_fps (v : number) (w : World) : World :=
  mkWorld (canvasRef w) (isRendering w) v (frameCount w) (statusMessage w)
    (errorMessage w) (lastErrorTime w) (backendStats w) (frontendStats w)
    (animationId w) (fpsFrameCount w) (fpsLastUpdate w)
    (frontendPerfSamples w) (mouseState w) (statsInterval w)
    (performance_clock w) (Date_clock w) (clock_reads w) (animation_frames w)
    (next_animation_frame w) (intervals w) (next_interval w) (calls w).
Definition set_frameCount (v : number) (w : World) : World :=
  mkWorld (canvasRef w) (isRendering w) (fps w) v (statusMessage w)
    (errorMessage w) (lastErrorTime w) (backendStats w) (frontendStats w)
    (animationId w) (fpsFrameCount w) (fpsLastUpdate w)
    (frontendPerfSamples w) (mouseState w) (statsInterval w)
    (performance_clock w) (Date_clock w) (clock_reads w) (animation_frames w)
    (next_animation_frame w) (intervals w) (next_interval w) (calls w).
Definition set_statusMessage (v : string) (w : World) : World :=
  mkWorld (canvasRef w) (isRendering w) (fps w) (frameCount w) v
    (errorMessage w) (lastErrorTime w) (backendStats w) (frontendStats w)
    (animationId w) (fpsFrameCount w) (fpsLastUpdate w)
    (frontendPerfSamples w) (mouseState w) (statsInterval w)
    (performance_clock w) (Date_clock w) (clock_reads w) (animation_frames w)
    (next_animation_frame w) (intervals w) (next_interval w) (calls w).
Definition set_errorMessage (v : string) (w : World) : World :=
  mkWorld (canvasRef w) (isRendering w) (fps w) (frameCount w)
    (statusMessage w) v (lastErrorTime w) (backendStats w) (frontendStats w)
    (animationId w) (fpsFrameCount w) (fpsLastUpdate w)
    (frontendPerfSamples w) (mouseState w) (statsInterval w)
    (performance_clock w) (Date_clock w) (clock_reads w) (animation_frames w)
    (next_animation_frame w) (intervals w) (next_interval w) (calls w).
Definition set_lastErrorTime (v : number) (w : World) : World :=
  mkWorld (canvasRef w) (isRendering w) (fps w) (frameCount w)
    (statusMessage w) (errorMessage w) v (backendStats w) (frontendStats w)
    (animationId w) (fpsFrameCount w) (fpsLastUpdate w)
    (frontendPerfSamples w) (mouseState w) (statsInterval w)
    (performance_clock w) (Date_clock w) (clock_reads w) (animation_frames w)
    (next_animation_frame w) (intervals w) (next_interval w) (calls w).
Definition set_backendStats (v : PerformanceStats) (w : World) : World :=
  mkWorld (canvasRef w) (isRendering w) (fps w) (frameCount w)
    (statusMessage w) (errorMessage w) (lastErrorTime w) v (frontendStats w)
    (animationId w) (fpsFrameCount w) (fpsLastUpdate w)
    (frontendPerfSamples w) (mouseState w) (statsInterval w)
    (performance_clock w) (Date_clock w) (clock_reads w) (animation_frames w)
    (next_animation_frame w) (intervals w) (next_interval w) (calls w).
Definition set_frontendStats (v : FrontendPerf) (w : World) : World :=
  mkWorld (canvasRef w) (isRendering w) (fps w) (frameCount w)
    (statusMessage w) (errorMessage w) (lastErrorTime w) (backendStats w) v
    (animationId w) (fpsFrameCount w) (fpsLastUpdate w)
    (frontendPerfSamples w) (mouseState w) (statsInterval w)
    (performance_clock w) (Date_clock w) (clock_reads w) (animation_frames w)
    (next_animation_frame w) (intervals w) (next_interval w) (calls w).
Definition set_animationId (v : option Z) (w : World) : World :=
  mkWorld (canvasRef w) (isRendering w) (fps w) (frameCount w)
    (statusMessage w) (errorMessage w) (lastErrorTime w) (backendStats w)
    (frontendStats w) v (fpsFrameCount w) (fpsLastUpdate w)
    (frontendPerfSamples w) (mouseState w) (statsInterval w)
    (performance_clock w) (Date_clock w) (clock_reads w) (animation_frames w)
    (next_animation_frame w) (intervals w) (next_interval w) (calls w).
Definition set_fpsFrameCount (v : number) (w : World) : World :=
  mkWorld (canvasRef w) (isRendering w) (fps w) (frameCount w)
    (statusMessage w) (errorMessage w) (lastErrorTime w) (backendStats w)
    (frontendStats w) (animationId w) v (fpsLastUpdate w)
    (frontendPerfSamples w) (mouseState w) (statsInterval w)
    (performance_clock w) (Date_clock w) (clock_reads w) (animation_frames w)
    (next_animation_frame w) (intervals w) (next_interval w) (calls w).
Definition set_fpsLastUpdate (v : number) (w : World) : World :=
  mkWorld (canvasRef w) (isRendering w) (fps w) (frameCount w)
    (statusMessage w) (errorMessage w) (lastErrorTime w) (backendStats w)
    (frontendStats w) (animationId w) (fpsFrameCount w) v
    (frontendPerfSamples w) (mouseState w) (statsInterval w)
    (performance_clock w) (Date_clock w) (clock_reads w) (animation_frames w)
    (next_animation_frame w) (intervals w) (next_interval w) (calls w).
Definition set_frontendPerfSamples (v : list FrontendPerf) (w : World) : World :=
  mkWorld (canvasRef w) (isRendering w) (fps w) (frameCount w)
    (statusMessage w) (errorMessage w) (lastErrorTime w) (backendStats w)
    (frontendStats w) (animationId w) (fpsFrameCount w) (fpsLastUpdate w) v
    (mouseState w) (statsInterval w) (performance_clock w) (Date_clock w)
    (clock_reads w) (animation_frames w) (next_animation_frame w)
    (intervals w) (next_interval w) (calls w).
Definition set_mouseState (v : MouseState.t) (w : World) : World :=
  mkWorld (canvasRef w) (isRendering w) (fps w) (frameCount w)
    (statusMessage w) (errorMessage w) (lastErrorTime w) (backendStats w)
    (frontendStats w) (animationId w) (fpsFrameCount w) (fpsLastUpdate w)
    (frontendPerfSamples w) v (statsInterval w) (performance_clock w)
    (Date_clock w) (clock_reads w) (animation_frames w)
    (next_animation_frame w) (intervals w) (next_interval w) (calls w).
Definition set_statsInterval (v : option Z) (w : World) : World :=
  mkWorld (canvasRef w) (isRendering w) (fps w) (frameCount w)
    (statusMessage w) (errorMessage w) (lastErrorTime w) (backendStats w)
    (frontendStats w) (animationId w) (fpsFrameCount w) (fpsLastUpdate w)
    (frontendPerfSamples w) (mouseState w) v (performance_clock w)
    (Date_clock w) (clock_reads w) (animation_frames w)
    (next_animation_frame w) (intervals w) (next_interval w) (calls w).
Definition set_clock_reads (v : nat) (w : World) : World :=
  mkWorld (canvasRef w) (isRendering w) (fps w) (frameCount w)
    (statusMessage w) (errorMessage w) (lastErrorTime w) (backendStats w)
    (frontendStats w) (animationId w) (fpsFrameCount w) (fpsLastUpdate w)
    (frontendPerfSamples w) (mouseState w) (statsInterval w)
    (performance_clock w) (Date_clock w) v (animation_frames w)
    (next_animation_frame w) (intervals w) (next_interval w) (calls w).
Definition set_animation_frames (v : list Z) (w : World) : World :=
  mkWorld (canvasRef w) (isRendering w) (fps w) (frameCount w)
    (statusMessage w) (errorMessage w) (lastErrorTime w) (backendStats w)
    (frontendStats w) (animationId w) (fpsFrameCount w) (fpsLastUpdate w)
    (frontendPerfSamples w) (mouseState w) (statsInterval w)
    (performance_clock w) (Date_clock w) (clock_reads w) v
    (next_animation_frame w) (intervals w) (next_interval w) (calls w).
Definition set_next_animation_frame (v : Z) (w : World) : World :=
  mkWorld (canvasRef w) (isRendering w) (fps w) (frameCount w)
    (statusMessage w) (errorMessage w) (lastErrorTime w) (backendStats w)
    (frontendStats w) (animationId w) (fpsFrameCount w) (fpsLastUpdate w)
    (frontendPerfSamples w) (mouseState w) (statsInterval w)
    (performance_clock w) (Date_clock w) (clock_reads w) (animation_frames w)
    v (intervals w) (next_interval w) (calls w).
Definition set_intervals (v : list Z) (w : World) : World :=
  mkWorld (canvasRef w) (isRendering w) (fps w) (frameCount w)
    (statusMessage w) (errorMessage w) (lastErrorTime w) (backendStats w)
    (frontendStats w) (animationId w) (fpsFrameCount w) (fpsLastUpdate w)
    (frontendPerfSamples w) (mouseState w) (statsInterval w)
    (performance_clock w) (Date_clock w) (clock_reads w) (animation_frames w)
    (next_animation_frame w) v (next_interval w) (calls w).
Definition set_next_interval (v : Z) (w : World) : World :=
  mkWorld (canvasRef w) (isRendering w) (fps w) (frameCount w)
    (statusMessage w) (errorMessage w) (lastErrorTime w) (backendStats w)
    (frontendStats w) (animationId w) (fpsFrameCount w) (fpsLastUpdate w)
    (frontendPerfSamples w) (mouseState w) (statsInterval w)
    (performance_clock w) (Date_clock w) (clock_reads w) (animation_frames w)
    (next_animation_frame w) (intervals w) v (calls w).
Definition set_calls (v : list call) (w : World) : World :=
  mkWorld (canvasRef w) (isRendering w) (fps w) (frameCount w)
    (statusMessage w) (errorMessage w) (lastErrorTime w) (backendStats w)
    (frontendStats w) (animationId w) (fpsFrameCount w) (fpsLastUpdate w)
    (frontendPerfSamples w) (mouseState w) (statsInterval w)
    (performance_clock w) (Date_clock w) (clock_reads w) (animation_frames w)
    (next_animation_frame w) (intervals w) (next_interval w) v.

(** ** The browser, as the script uses it *)

(** [performance.now()] and [Date.now()]: the next reading of the clock. *)
Definition performance_now (w : World) : number * World :=
  (performance_clock w (clock_reads w), set_clock_reads (S (clock_reads w)) w).

Definition Date_now (w : World) : number * World :=
  (Date_clock w (clock_reads w), set_clock_reads (S (clock_reads w)) w).

Definition log (c : call) (w : World) : World :=
  set_calls (calls w ++ [c]) w.

(** [requestAnimationFrame(renderLoop)] answers a fresh handle and leaves
    the callback pending; [cancelAnimationFrame(id)] drops it, and does
    nothing when [id] is not pending. *)
Definition requestAnimationFrame (w : World) : Z * World :=
  let id := next_animation_frame w in
  (id, set_next_animation_frame (id + 1)%Z
         (set_animation_frames (animation_frames w ++ [id]) w)).

Definition cancelAnimationFrame (id : Z) (w : World) : World :=
  set_animation_frames (filter (fun h => h <> id) (animation_frames w)) w.

(** [window.setInterval(updateBackendStats, 500)] and [clearInterval(id)]. *)
Definition setInterval (w : World) : Z * World :=
  let id := next_interval w in
  (id, set_next_interval (id + 1)%Z (set_intervals (intervals w ++ [id]) w)).

Definition clearInterval (id : Z) (w : World) : World :=
  set_intervals (filter (fun h => h <> id) (intervals w)) w.

(** ** Asynchronous functions *)

(** What an [await] waits for, indexed by what it resolves to. *)
Inductive request : Type -> Type :=
| fetch (url : string) : request Response
| response_blob (response : Response) : request Blob
| createImageBitmap (blob : Blob) : request ImageBitmap
| invoke_get_frame : request FrameResponse
| invoke_get_performance_stats : request PerformanceStats
| invoke_send_mouse_input (args : MouseInput) : request unit.

(** A call of an async function, run up to its end or its next [await].
    [Await w r k]: the state is [w], [r] is pending, and [k] continues with
    the outcome of [r] in the state of that later moment. *)
Inductive task : Type :=
| Return (w : World)
| Throw (w : World) (e : error)
| Await {A : Type} (w : World) (r : request A) (k : result A -> World -> task).

(** An async function called without [await]: the caller goes on in the
    state the callee left, the suspended callee is handed to the event
    loop. *)
Definition spawn (t : task) : World * list task :=
  match t with
  | Return w => (w, [])
  | Throw w _ => (w, [])
  | Await w _ _ => (w, [t])
  end.

(** ** What both revisions share

    The following functions have the same text in [src/src/App.vue] and in
    [src/unnamed/part_000]. *)

(** [updateFps] (App.vue 207-217, part_000 319-329). *)
Definition updateFps (w : World) : World :=
  let w := set_fpsFrameCount (fpsFrameCount w + 1)%float w in
  let '(now, w) := performance_now w in
  if ge (now - fpsLastUpdate w)%float 1000%float then
    let w := set_fps (Math_round (fpsFrameCount w / ((now - fpsLastUpdate w) / 1000))%float) w in
    let w := set_fpsFrameCount 0%float w in
    set_fpsLastUpdate now w
  else w.

(** [updateBackendStats] (App.vue 222-229, part_000 334-341). *)
Definition updateBackendStats (w : World) : task :=
  Await w invoke_get_performance_stats (fun outcome w =>
    match outcome with
    | Ok stats => Return (set_backendStats stats w)
    | Err _ => Return w
    end).

(** The arrow function [avg] of [renderLoop]: [reduce] from 0, divided by
    the length. *)
Definition avg (key : FrontendPerf -> number) (samples : list FrontendPerf) : number :=
  (fold_left (fun sum s => sum + key s) samples 0 / of_nat (length samples))%float.

(** "Store performance sample" up to "Update averaged frontend stats"
    (App.vue 155-181, part_000 267-293): [push], [shift] when more than 30
    are held, then the averages. *)
Definition store_sample (sample : FrontendPerf) (w : World) : World :=
  let w := set_frontendPerfSamples (frontendPerfSamples w ++ [sample]) w in
  let w :=
    if (30 <? length (frontendPerfSamples w))%nat
    then set_frontendPerfSamples (tail (frontendPerfSamples w)) w
    else w in
  if (0 <? length (frontendPerfSamples w))%nat then
    set_frontendStats
      {| tauri_call_ms := avg tauri_call_ms (frontendPerfSamples w);
         image_create_ms := avg image_create_ms (frontendPerfSamples w);
         canvas_draw_ms := avg canvas_draw_ms (frontendPerfSamples w);
         total_loop_ms := avg total_loop_ms (frontendPerfSamples w);
         frontend_fps := fps w |} w
  else w.

(** "Update statistics" (App.vue 183-186, part_000 295-298). *)
Definition update_statistics (w : World) : World :=
  let w := set_frameCount (frameCount w + 1)%float w in
  let w := updateFps w in
  set_errorMessage "" w.

(** The [catch] clause of [renderLoop] (App.vue 187-195, part_000 299-307). *)
Definition catch_error (e : error) (w : World) : World :=
  let '(now, w) := Date_now w in
  if gt (now - lastErrorTime w)%float 1000%float then
    let w := log (console_warn "Frame fetch error:" e) w in
    let w := set_errorMessage (String_of_error e) w in
    set_lastErrorTime now w
  else w.

(** "Schedule the next frame" (App.vue 197-200, part_000 309-312). *)
Definition schedule_next (w : World) : World :=
  if isRendering w then
    let '(id, w) := requestAnimationFrame w in
    set_animationId (Some id) w
  else w.

(** [startRendering] (App.vue 258-273, part_000 370-385). *)
Definition startRendering (w : World) : World * list task :=
  if isRendering w then (w, [])
  else
    let w := set_isRendering true w in
    let w := set_statusMessage "Rendering..." w in
    let w := set_errorMessage "" w in
    let '(now, w) := performance_now w in
    let w := set_fpsLastUpdate now w in
    let w := set_fpsFrameCount 0%float w in
    let '(id, w) := requestAnimationFrame w in
    let w := set_animationId (Some id) w in
    let '(id, w) := setInterval w in
    let w := set_statsInterval (Some id) w in
    spawn (updateBackendStats w).

(** [stopRendering] (App.vue 278-291, part_000 390-403). *)
Definition stopRendering (w : World) : World :=
  let w := set_isRendering false w in
  let w := set_statusMessage "Rendering stopped" w in
  let w :=
    match animationId w with
    | Some id => set_animationId None (cancelAnimationFrame id w)
    | None => w
    end in
  match statsInterval w with
  | Some id => set_statsInterval None (clearInterval id w)
  | None => w
  end.

(** [getPerfClass] and [getTotalLatency] (App.vue 237-249, part_000 349-361). *)
Definition getPerfClass (ms : number) : string :=
  if lt ms 1%float then "perf-excellent"
  else if lt ms 5%float then "perf-good"
  else if lt ms 10%float then "perf-warn"
  else "perf-bad".

Definition getTotalLatency (w : World) : number :=
  (frame_encoding_ms (backendStats w) + total_loop_ms (frontendStats w))%float.

(** ** [src/src/App.vue]: frames through the structured call *)

Module AppVue.

(** The [for] loop of lines 141-143: [n] iterations are left, [i] is the
    index. *)
Fixpoint copy_char_codes (n i : nat) (binaryString : string) (bytes : Uint8ClampedArray)
  : Uint8ClampedArray :=
  match n with
  | O => bytes
  | S n' => copy_char_codes n' (S i) binaryString (store bytes i (charCodeAt binaryString i))
  end.

(** "Decode Base64 to binary" (lines 139-143), after [atob] has answered. *)
Definition bytes_of_binary_string (binaryString : string) : Uint8ClampedArray :=
  let bytes := new_Uint8ClampedArray (String.length binaryString) in
  copy_char_codes (String.length binaryString) 0 binaryString bytes.

(** Lines 139-144: from the response to the image, or to what was thrown. *)
Definition decode_frame (response : FrameResponse) : result ImageData :=
  match atob (data response) with
  | Err e => Err e
  | Ok binaryString =>
      new_ImageData (bytes_of_binary_string binaryString) (width response) (height response)
  end.

(** [renderLoop] (lines 113-201). *)
Definition renderLoop (w : World) : task :=
  if negb (isRendering w) then Return w
  else
    let '(loopStart, w) := performance_now w in
    match canvasRef w with
    | None => Return (log (console_error "Canvas not available") w)
    | Some canvas =>
    match getContext canvas with
    | None => Return (log (console_error "Could not get 2D context") w)
    | Some ctx =>
      let '(tauriStart, w) := performance_now w in
      Await w invoke_get_frame (fun outcome w =>
        match outcome with
        | Err e => Return (schedule_next (catch_error e w))
        | Ok response =>
          let '(now, w) := performance_now w in
          let tauriTime := (now - tauriStart)%float in
          let '(imageStart, w) := performance_now w in
          let w := log (call_atob (data response)) w in
          match decode_frame response with
          | Err e => Return (schedule_next (catch_error e w))
          | Ok imageData =>
            let '(now, w) := performance_now w in
            let imageTime := (now - imageStart)%float in
            let '(drawStart, w) := performance_now w in
            let w := log (putImageData imageData 0%float 0%float) w in
            let '(now, w) := performance_now w in
            let drawTime := (now - drawStart)%float in
            let '(now, w) := performance_now w in
            let totalTime := (now - loopStart)%float in
            let w :=
              store_sample
                {| tauri_call_ms := tauriTime;
                   image_create_ms := imageTime;
                   canvas_draw_ms := drawTime;
                   total_loop_ms := totalTime;
                   frontend_fps := 0%float |} w in
            let w := update_statistics w in
            Return (schedule_next w)
          end
        end)
    end
    end.

End AppVue.

(** ** [src/unnamed/part_000]: frames from the binary endpoint, and input *)

Module Part000.

(** What a DOM event handler leaves behind: the state, the async calls it
    started without awaiting them, and whether it called
    [event.preventDefault()]. *)
Record handled : Type := mkHandled {
  after : World;
  started : list task;
  defaultPrevented : bool;
}.

(** [sendMouseInput] (lines 109-127): both outcomes of the call end the
    function, the rejection in an empty [catch]. *)
Definition sendMouseInput (deltaX deltaY scrollDelta : number) (leftButton rightButton : bool)
    (w : World) : task :=
  Await w (invoke_send_mouse_input (mkMouseInput deltaX deltaY scrollDelta leftButton rightButton))
    (fun outcome w =>
       match outcome with
       | Ok _ => Return w
       | Err _ => Return w
       end).

(** [handleMouseDown] (lines 132-143). *)
Definition handleMouseDown (event : MouseEvent) (w : World) : handled :=
  let m := mouseState w in
  let m :=
    if (button event =? 0)%Z then
      MouseState.mk true (MouseState.rightButton m) (MouseState.lastX m) (MouseState.lastY m)
    else if (button event =? 2)%Z then
      MouseState.mk (MouseState.leftButton m) true (MouseState.lastX m) (MouseState.lastY m)
    else m in
  let m :=
    MouseState.mk (MouseState.leftButton m) (MouseState.rightButton m)
      (clientX event) (clientY event) in
  mkHandled (set_mouseState m w) [] true.

(** [handleMouseUp] (lines 148-157). *)
Definition handleMouseUp (event : MouseEvent) (w : World) : handled :=
  let m := mouseState w in
  if (button event =? 0)%Z then
    let m := MouseState.mk false (MouseState.rightButton m) (MouseState.lastX m) (MouseState.lastY m) in
    let w := set_mouseState m w in
    let '(w, ts) :=
      spawn (sendMouseInput 0%float 0%float 0%float false
               (MouseState.rightButton (mouseState w)) w) in
    mkHandled w ts false
  else if (button event =? 2)%Z then
    let m := MouseState.mk (MouseState.leftButton m) false (MouseState.lastX m) (MouseState.lastY m) in
    let w := set_mouseState m w in
    let '(w, ts) :=
      spawn (sendMouseInput 0%float 0%float 0%float
               (MouseState.leftButton (mouseState w)) false w) in
    mkHandled w ts false
  else mkHandled w [] false.

(** [handleMouseMove] (lines 163-181). *)
Definition handleMouseMove (event : MouseEvent) (w : World) : handled :=
  let m := mouseState w in
  if negb (MouseState.leftButton m) && negb (MouseState.rightButton m) then
    mkHandled w [] false
  else
    let deltaX := (clientX event - MouseState.lastX m)%float in
    let deltaY := (clientY event - MouseState.lastY m)%float in
    let m :=
      MouseState.mk (MouseState.leftButton m) (MouseState.rightButton m)
        (clientX event) (clientY event) in
    let w := set_mouseState m w in
    let '(w, ts) :=
      spawn (sendMouseInput deltaX deltaY 0%float
               (MouseState.leftButton (mouseState w))
               (MouseState.rightButton (mouseState w)) w) in
    mkHandled w ts false.

(** [handleWheel] (lines 186-195). *)
Definition handleWheel (event : WheelEvent) (w : World) : handled :=
  let scrollDelta := ((- wheel_deltaY event) * 0.01)%float in
  let '(w, ts) :=
    spawn (sendMouseInput 0%float 0%float scrollDelta
             (MouseState.leftButton (mouseState w))
             (MouseState.rightButton (mouseState w)) w) in
  mkHandled w ts true.

(** [handleContextMenu] (lines 200-202). *)
Definition handleContextMenu (w : World) : handled :=
  mkHandled w [] true.

(** [renderLoop] (lines 220-313). *)
Definition renderLoop (w : World) : task :=
  if negb (isRendering w) then Return w
  else
    let '(loopStart, w) := performance_now w in
    match canvasRef w with
    | None => Return (log (console_error "Canvas not available") w)
    | Some canvas =>
    match getContext canvas with
    | None => Return (log (console_error "Could not get 2D context") w)
    | Some ctx =>
      let '(fetchStart, w) := performance_now w in
      Await w (fetch "http://frame.localhost/frame") (fun outcome w =>
        match outcome with
        | Err e => Return (schedule_next (catch_error e w))
        | Ok response =>
          if negb (ok response) then
            let e := Error ("Frame fetch failed: " +:+ pretty (status response)) in
            Return (schedule_next (catch_error e w))
          else
          Await w (response_blob response) (fun outcome w =>
            match outcome with
            | Err e => Return (schedule_next (catch_error e w))
            | Ok blob =>
              let '(now, w) := performance_now w in
              let fetchTime := (now - fetchStart)%float in
              let '(imageStart, w) := performance_now w in
              Await w (createImageBitmap blob) (fun outcome w =>
                match outcome with
                | Err e => Return (schedule_next (catch_error e w))
                | Ok imageBitmap =>
                  let '(now, w) := performance_now w in
                  let imageTime := (now - imageStart)%float in
                  let '(drawStart, w) := performance_now w in
                  let w := log (drawImage imageBitmap 0%float 0%float) w in
                  let w := log (bitmap_close imageBitmap) w in
                  let '(now, w) := performance_now w in
                  let drawTime := (now - drawStart)%float in
                  let '(now, w) := performance_now w in
                  let totalTime := (now - loopStart)%float in
                  let w :=
                    store_sample
                      {| tauri_call_ms := fetchTime;
                         image_create_ms := imageTime;
                         canvas_draw_ms := drawTime;
                         total_loop_ms := totalTime;
                         frontend_fps := 0%float |} w in
                  let w := update_statistics w in
                  Return (schedule_next w)
                end)
            end)
        end)
    end
    end.

End Part000.

(** ** The event loop

    The browser runs one handler at a time, to its end or to an [await]:
    a click on Start or Stop, an animation-frame callback, an elapsed
    interval, the settlement of a pending request, a pointer event. *)

(** A request that was handed to the platform. *)
Inductive issued_request : Type :=
| Issued {A : Type} (r : request A).

Definition request_of (t : task) : list issued_request :=
  match t with
  | Await _ r _ => [Issued r]
  | _ => []
  end.

(** The requests that pull from the renderer: a frame or the statistics. *)
Definition is_poll (i : issued_request) : bool :=
  match i with
  | Issued (fetch _) => true
  | Issued invoke_get_frame => true
  | Issued invoke_get_performance_stats => true
  | Issued _ => false
  end.

Record System : Type := mkSystem {
  world : World;
  inflight : list task;
  issued : list issued_request;
}.

(** How a pending request settles. *)
Inductive settlement : Type :=
| fulfilled_response (response : Response)
| fulfilled_blob (blob : Blob)
| fulfilled_bitmap (image : ImageBitmap)
| fulfilled_frame (frame : FrameResponse)
| fulfilled_stats (stats : PerformanceStats)
| fulfilled_unit
| rejected (e : error).

(** The outcome a request of this kind gets from a settlement, if the
    settlement is one of its kind. *)
Definition deliver {A : Type} (r : request A) (s : settlement) : option (result A) :=
  match r in request A return option (result A) with
  | fetch _ =>
      match s with
      | fulfilled_response x => Some (Ok x) | rejected e => Some (Err e) | _ => None
      end
  | response_blob _ =>
      match s with
      | fulfilled_blob x => Some (Ok x) | rejected e => Some (Err e) | _ => None
      end
  | createImageBitmap _ =>
      match s with
      | fulfilled_bitmap x => Some (Ok x) | rejected e => Some (Err e) | _ => None
      end
  | invoke_get_frame =>
      match s with
      | fulfilled_frame x => Some (Ok x) | rejected e => Some (Err e) | _ => None
      end
  | invoke_get_performance_stats =>
      match s with
      | fulfilled_stats x => Some (Ok x) | rejected e => Some (Err e) | _ => None
      end
  | invoke_send_mouse_input _ =>
      match s with
      | fulfilled_unit => Some (Ok tt) | rejected e => Some (Err e) | _ => None
      end
  end.

(** A suspended task goes on, in the state [w], when its request settles. *)
Definition resume (t : task) (s : settlement) (w : World) : option task :=
  match t with
  | Await _ r k => (fun outcome => k outcome w) <$> deliver r s
  | _ => None
  end.

(** The state a task has reached. *)
Definition world_of (t : task) : World :=
  match t with
  | Return w => w
  | Throw w _ => w
  | Await w _ _ => w
  end.

Inductive event : Type :=
| start_clicked
| stop_clicked
| animation_frame (id : Z)
| interval_elapsed (id : Z)
| settled (i : nat) (s : settlement)
| mousedown (e : MouseEvent)
| mouseup (e : MouseEvent)
| mousemove (e : MouseEvent)
| wheel (e : WheelEvent)
| contextmenu.

(** The handler left the state [w] and started [ts]. *)
Definition adopt (w : World) (ts : list task) (s : System) : System :=
  mkSystem w (inflight s ++ ts) (issued s ++ (ts ≫= request_of)).

Definition run_task (t : task) (s : System) : System :=
  adopt (fst (spawn t)) (snd (spawn t)) s.

Section EventLoop.

(** The revision: its [renderLoop], and whether the canvas has the pointer
    listeners (part_000 452-455, 416). *)
Variable renderLoop : World -> task.
Variable pointer_listeners : bool.

Definition pointer (h : World -> Part000.handled) (s : System) : option System :=
  if pointer_listeners
  then Some (adopt (Part000.after (h (world s))) (Part000.started (h (world s))) s)
  else Some s.

Definition step (ev : event) (s : System) : option System :=
  match ev with
  | start_clicked =>
      Some (adopt (fst (startRendering (world s))) (snd (startRendering (world s))) s)
  | stop_clicked =>
      Some (adopt (stopRendering (world s)) [] s)
  | animation_frame id =>
      if decide (id ∈ animation_frames (world s)) then
        Some (run_task (renderLoop (cancelAnimationFrame id (world s))) s)
      else None
  | interval_elapsed id =>
      if decide (id ∈ intervals (world s)) then
        Some (run_task (updateBackendStats (world s)) s)
      else None
  | settled i st =>
      t ← inflight s !! i;
      t' ← resume t st (world s);
      Some (run_task t' (mkSystem (world s) (delete i (inflight s)) (issued s)))
  | mousedown e => pointer (Part000.handleMouseDown e) s
  | mouseup e => pointer (Part000.handleMouseUp e) s
  | mousemove e => pointer (Part000.handleMouseMove e) s
  | wheel e => pointer (Part000.handleWheel e) s
  | contextmenu => pointer Part000.handleContextMenu s
  end.

Fixpoint run (evs : list event) (s : System) : option System :=
  match evs with
  | [] => Some s
  | ev :: evs' => s' ← step ev s; run evs' s'
  end.

End EventLoop.

(** The component as it is loaded (App.vue 56-96 and 232, part_000 51-103
    and 344): [fpsLastUpdate] takes the first reading of the clock. *)
Definition initial (canvas : option Canvas) (performance_clock Date_clock : nat -> number) : World :=
  {| canvasRef := canvas;
     isRendering := false;
     fps := 0%float;
     frameCount := 0%float;
     statusMessage := "Click 'Start' to begin rendering";
     errorMessage := "";
     lastErrorTime := 0%float;
     backendStats := mkPerformanceStats 0%float 0%float 0%float 0%float 0%float 0%float 0%float 0%float;
     frontendStats := mkFrontendPerf 0%float 0%float 0%float 0%float 0%float;
     animationId := None;
     fpsFrameCount := 0%float;
     fpsLastUpdate := performance_clock O;
     frontendPerfSamples := [];
     mouseState := MouseState.mk false false 0%float 0%float;
     statsInterval := None;
     performance_clock := performance_clock;
     Date_clock := Date_clock;
     clock_reads := 1;
     animation_frames := [];
     next_animation_frame := 1%Z;
     intervals := [];
     next_interval := 1%Z;
     calls := [] |}.

Definition boot (w : World) : System := mkSystem w [] [].

(** Whether a run is defined: every event of it was enabled. *)
Definition defined (o : option System) : bool :=
  match o with
  | Some _ => true
  | None => false
  end.

(** ** Records as objects

    A value of a TypeScript interface is a JavaScript object: a finite map
    from property names to values.  [object_of_PerformanceStats] is the
    object of a record; [PerformanceStats_of_object] reads an object through
    the interface, the way the template reads [backendStats]: it takes
    [backendStats.bevy_fps.toFixed(1)] and the like (App.vue 343-386,
    part_000 498-541), and only a number has [toFixed]. *)

Inductive value : Type :=
| Number (n : number)
| String_value (s : string)
| Boolean (b : bool)
| Null.

Definition is_numeric (v : value) : bool :=
  match v with
  | Number _ => true
  | _ => false
  end.

Definition number_at (o : gmap string value) (property : string) : option number :=
  match o !! property with
  | Some (Number n) => Some n
  | _ => None
  end.

Definition object_of_PerformanceStats (s : PerformanceStats) : gmap string value :=
  list_to_map
    [ ("gpu_transfer_ms", Number (gpu_transfer_ms s));
      ("data_processing_ms", Number (data_processing_ms s));
      ("frame_encoding_ms", Number (frame_encoding_ms s));
      ("bevy_fps", Number (bevy_fps s));
      ("frame_count", Number (frame_count s));
      ("data_size_kb", Number (data_size_kb s));
      ("tauri_get_frame_ms", Number (tauri_get_frame_ms s));
      ("tauri_serialize_ms", Number (tauri_serialize_ms s)) ].

Definition PerformanceStats_of_object (o : gmap string value) : option PerformanceStats :=
  a ← number_at o "gpu_transfer_ms";
  b ← number_at o "data_processing_ms";
  c ← number_at o "frame_encoding_ms";
  d ← number_at o "bevy_fps";
  e ← number_at o "frame_count";
  f ← number_at o "data_size_kb";
  g ← number_at o "tauri_get_frame_ms";
  h ← number_at o "tauri_serialize_ms";
  Some (mkPerformanceStats a b c d e f g h).

(** What an item of the performance panel shows: a number through
    [toFixed(digits)], or a value interpolated as it is ([None] for
    [undefined], the value of a property the object does not have). *)
Inductive shown : Type :=
| fixed (x : number) (digits : nat)
| interpolated (v : option value).

(** The [span] of an item: the class its [:class] binding computes, when
    it has one, and what it shows. *)
Record perf_value : Type := mkPerfValue {
  perf_class : option string;
  perf_text : shown;
}.

(** [{{ backendStats.property.toFixed(digits) }}], with
    [:class="getPerfClass(backendStats.property)"] where the item has it.
    Only a number has [toFixed]: on a missing property, and on any other
    value, the call throws a [TypeError] and the template is not
    rendered. *)
Definition toFixed_of (backendStats : gmap string value) (property : string) (digits : nat)
    (classed : bool) : option perf_value :=
  match backendStats !! property with
  | Some (Number x) =>
      Some (mkPerfValue (if classed then Some (getPerfClass x) else None) (fixed x digits))
  | _ => None
  end.

(** The items of the performance panel that read [backendStats], in the
    order of the template (App.vue 341-399, part_000 496-554): the six of
    the backend section, and of the IPC section the two backend timings
    and the overhead, which subtracts them from the frontend's
    [tauri_call_ms].  [None] when rendering them throws. *)
Definition backend_stats_items (backendStats : gmap string value) (tauri_call : number)
    : option (list perf_value) :=
  fps_item ← toFixed_of backendStats "bevy_fps" 1 false;
  transfer ← toFixed_of backendStats "gpu_transfer_ms" 2 true;
  processing ← toFixed_of backendStats "data_processing_ms" 2 true;
  encoding ← toFixed_of backendStats "frame_encoding_ms" 2 true;
  size ← toFixed_of backendStats "data_size_kb" 1 false;
  let frames := mkPerfValue None (interpolated (backendStats !! "frame_count")) in
  get_frame ← toFixed_of backendStats "tauri_get_frame_ms" 2 true;
  serialize ← toFixed_of backendStats "tauri_serialize_ms" 2 true;
  get_frame_ms ← number_at backendStats "tauri_get_frame_ms";
  serialize_ms ← number_at backendStats "tauri_serialize_ms";
  let overhead :=
    mkPerfValue None (fixed (tauri_call - get_frame_ms - serialize_ms)%float 2) in
  Some [fps_item; transfer; processing; encoding; size; frames; get_frame; serialize; overhead].

(** The property names the specification gives for the statistics record. *)
Definition specified_stats_fields : list string :=
  [ "gpu_transfer_ms"; "data_processing_ms"; "frame_encoding_ms"; "fps";
    "frame_count"; "data_size_kb"; "get_frame_ms"; "serialize_ms" ].

(** The property names of [interface PerformanceStats]. *)
Definition declared_stats_fields : list string :=
  [ "gpu_transfer_ms"; "data_processing_ms"; "frame_encoding_ms"; "bevy_fps";
    "frame_count"; "data_size_kb"; "tauri_get_frame_ms"; "tauri_serialize_ms" ].



(** ** The renderer's side of the structured frame call *)

Module Renderer.

(** Modelled from the spec: the frame the renderer publishes, which is not
    in [src/]: a raw pixel buffer with its width and height, in the
    canonical RGBA byte layout (section 3). *)
Record Frame : Type := mkFrame {
  frame_width : N;
  frame_height : N;
  rgba : list N;
}.


(** Modelled from the spec: the text-safe encoding of the bytes (section
    6), which the client's interface calls Base64 (App.vue 25): the
    standard alphabet, with padding; three bytes give four characters. *)
Definition char_of_sextet (v : N) : ascii :=
  if (v <? 26)%N then ascii_of_N (v + 65)
  else if (v <? 52)%N then ascii_of_N (v + 71)
  else if (v <? 62)%N then ascii_of_N (v - 4)
  else if (v =? 62)%N then "+"%char
  else "/"%char.

Fixpoint base64_encode (bytes : list N) : list ascii :=
  match bytes with
  | a :: b :: c :: rest =>
      let n := (a * 65536 + b * 256 + c)%N in
      char_of_sextet (n / 262144) :: char_of_sextet ((n / 4096) mod 64)
        :: char_of_sextet ((n / 64) mod 64) :: char_of_sextet (n mod 64)
        :: base64_encode rest
  | [a; b] =>
      let n := (a * 65536 + b * 256)%N in
      [char_of_sextet (n / 262144); char_of_sextet ((n / 4096) mod 64);
       char_of_sextet ((n / 64) mod 64); "="%char]
  | [a] =>
      let n := (a * 65536)%N in
      [char_of_sextet (n / 262144); char_of_sextet ((n / 4096) mod 64);
       "="%char; "="%char]
  | [] => []
  end.

(** Modelled from the spec: the [get_frame] command, which is not in
    [src/]: the structured frame call answers the record
    [{ data, width, height }] whose [data] is the text-safe encoding of the
    frame's bytes (section 6). *)
Definition get_frame (f : Frame) : FrameResponse :=
  {| data := string_of_list_ascii (base64_encode (rgba f));
     width := frame_width f;
     height := frame_height f |}.

End Renderer.

(** ** Observations used by the statements *)

(** The input records among the calls a handler started. *)
Definition submission (t : task) : list MouseInput :=
  match t with
  | Await _ (invoke_send_mouse_input args) _ => [args]
  | _ => []
  end.

Definition submissions (h : Part000.handled) : list MouseInput :=
  Part000.started h ≫= submission.

(** The button flags of a submission are the tracked state [m]. *)
Definition carries_state (m : MouseState.t) (args : MouseInput) : Prop :=
  leftButton args = MouseState.leftButton m /\ rightButton args = MouseState.rightButton m.

Definition is_text_decoding (c : call) : bool :=
  match c with
  | call_atob _ => true
  | _ => false
  end.

(** ** The two revisions as components *)

Inductive revision : Type :=
| structured_call   (* src/src/App.vue *)
| binary_endpoint.  (* src/unnamed/part_000 *)

Definition renderLoop_of (r : revision) : World -> task :=
  match r with
  | structured_call => AppVue.renderLoop
  | binary_endpoint => Part000.renderLoop
  end.

Definition has_pointer_listeners (r : revision) : bool :=
  match r with
  | structured_call => false
  | binary_endpoint => true
  end.

Definition client_step (r : revision) : event -> System -> option System :=
  step (renderLoop_of r) (has_pointer_listeners r).

Definition client_run (r : revision) : list event -> System -> option System :=
  run (renderLoop_of r) (has_pointer_listeners r).

(** ** Predicates of the statements *)

(** The render loop can run: the component is rendering and the canvas
    gives a 2D context. *)
Definition ready (w : World) : Prop :=
  isRendering w = true
  /\ exists canvas, canvasRef w = Some canvas /\ has_2d_context canvas = true.

(** Between [w] and [w'] nothing of the component changed but, possibly,
    the error display with its debounce stamp (and the handle of the next
    frame, the clock and the console, which are not listed). *)
Definition only_error_recorded (w w' : World) : Prop :=
  canvasRef w' = canvasRef w /\ isRendering w' = isRendering w /\ fps w' = fps w
  /\ frameCount w' = frameCount w /\ statusMessage w' = statusMessage w
  /\ backendStats w' = backendStats w /\ frontendStats w' = frontendStats w
  /\ fpsFrameCount w' = fpsFrameCount w /\ fpsLastUpdate w' = fpsLastUpdate w
  /\ frontendPerfSamples w' = frontendPerfSamples w /\ mouseState w' = mouseState w
  /\ statsInterval w' = statsInterval w /\ intervals w' = intervals w
  /\ ((errorMessage w' = errorMessage w /\ lastErrorTime w' = lastErrorTime w)
      \/ exists e, errorMessage w' = String_of_error e).

(** The iteration that was resumed in [w] is over: it ended normally, with
    no further request, and left the next iteration scheduled if the
    component is still rendering. *)
Definition kept_alive (w : World) (t : task) : Prop :=
  exists w',
    t = Return w'
    /\ only_error_recorded w w'
    /\ (isRendering w = true ->
        animationId w' = Some (next_animation_frame w)
        /\ animation_frames w' = animation_frames w ++ [next_animation_frame w]).

(** The statistics record computed from a window. *)
Definition averages (samples : list FrontendPerf) (current_fps : number) : FrontendPerf :=
  {| tauri_call_ms := avg tauri_call_ms samples;
     image_create_ms := avg image_create_ms samples;
     canvas_draw_ms := avg canvas_draw_ms samples;
     total_loop_ms := avg total_loop_ms samples;
     frontend_fps := current_fps |}.

(** The arithmetic mean as the claim words it, not the code's [avg], with
    which the statements compare it: the sum of the values, each added to
    the sum of those before it, over their number.  [sum_to_latest] takes
    the values latest first. *)
Fixpoint sum_to_latest (latest_first : list number) : number :=
  match latest_first with
  | [] => 0%float
  | x :: earlier => (sum_to_latest earlier + x)%float
  end.

Definition arithmetic_mean (values : list number) : number :=
  (sum_to_latest (rev values) / of_nat (length values))%float.

(** The per-metric means over a window, with the frame rate of the moment. *)
Definition window_means (window : list FrontendPerf) (current_fps : number) : FrontendPerf :=
  {| tauri_call_ms := arithmetic_mean (tauri_call_ms <$> window);
     image_create_ms := arithmetic_mean (image_create_ms <$> window);
     canvas_draw_ms := arithmetic_mean (canvas_draw_ms <$> window);
     total_loop_ms := arithmetic_mean (total_loop_ms <$> window);
     frontend_fps := current_fps |}.

(** The last [n] elements of a list. *)
Definition most_recent {A : Type} (n : nat) (l : list A) : list A :=
  drop (length l - n) l.

(** [recorded samples w]: the window of [w] is the result of storing
    [samples], in this order, into the empty window; between two samples
    the component may do anything that leaves the window alone. *)
Inductive recorded : list FrontendPerf -> World -> Prop :=
| recorded_none w :
    frontendPerfSamples w = [] -> recorded [] w
| recorded_sample samples w sample :
    recorded samples w -> recorded (samples ++ [sample]) (store_sample sample w)
| recorded_other samples w w' :
    recorded samples w -> frontendPerfSamples w' = frontendPerfSamples w ->
    recorded samples w'.

Definition store_all (samples : list FrontendPerf) (w : World) : World :=
  fold_left (fun w sample => store_sample sample w) samples w.

(** What a handler or a resumed task keeps of the state it started in: the
    rendering flag and the interval timer, the animation-frame handle while
    the component is not rendering, and the bound of the sample window. *)
Definition control_kept (w w' : World) : Prop :=
  isRendering w' = isRendering w
  /\ statsInterval w' = statsInterval w
  /\ intervals w' = intervals w
  /\ (isRendering w = false ->
      animationId w' = animationId w /\ animation_frames w' = animation_frames w)
  /\ (length (frontendPerfSamples w) <= 30 -> length (frontendPerfSamples w') <= 30).

(** A task that started in [w0] keeps the control state at every step, now
    and whenever it is resumed, and pulls from the renderer only as its
    first request ([fresh]) and only when the component is rendering. *)
Fixpoint tame (fresh : bool) (w0 : World) (t : task) : Prop :=
  match t with
  | Return w => control_kept w0 w
  | Throw w _ => control_kept w0 w
  | Await w r k =>
      control_kept w0 w
      /\ (is_poll (Issued r) = true -> fresh = true /\ isRendering w0 = true)
      /\ forall outcome w1, tame false w1 (k outcome w1)
  end.

Definition settles_tamely (t : task) : Prop :=
  match t with
  | Await _ _ k => forall outcome w, tame false w (k outcome w)
  | _ => True
  end.

(** The frame and statistics requests issued so far. *)
Definition polls (s : System) : list issued_request :=
  List.filter is_poll (issued s).

Definition timers_consistent (w : World) : Prop :=
  intervals w = option_list (statsInterval w)
  /\ (isRendering w = false -> statsInterval w = None)
  /\ length (frontendPerfSamples w) <= 30.

Definition consistent (s : System) : Prop :=
  timers_consistent (world s) /\ Forall settles_tamely (inflight s).


(** ** Concrete states and runs *)

Definition still_clock (n : nat) : number := 0%float.

(** The component as loaded, with a canvas that has a 2D context. *)
Definition loaded : World := initial (Some (mkCanvas true)) still_clock still_clock.

(** The same with rendering started. *)
Definition rendering : World := fst (startRendering loaded).

(** The [n]-th of a series of samples that all differ. *)
Definition numbered_sample (n : nat) : FrontendPerf :=
  mkFrontendPerf (of_nat n) (of_nat (2 * n)) (of_nat (3 * n)) (of_nat (6 * n)) 0%float.

Definition zero_stats : PerformanceStats :=
  mkPerformanceStats 0%float 0%float 0%float 0%float 0%float 0%float 0%float 0%float.

(** A record as the specification describes the answer of the statistics
    call: exactly the properties it names, all of them numbers. *)
Definition stats_as_specified : gmap string value :=
  list_to_map ((fun property => (property, Number 0%float)) <$> specified_stats_fields).

(** Start; the first animation frame, whose iteration is left waiting for
    its frame; Stop and Start again; then the frame request fails.  The
    in-flight requests are numbered in the order they were issued: 0 is the
    statistics request of the first start, 1 the frame request. *)
Definition restart_while_fetching : list event :=
  [ start_clicked; animation_frame 1; stop_clicked; start_clicked;
    settled 1 (rejected (Thrown "connection refused")) ].

(** ** Auxiliary definitions of the Base64 proofs *)

Module Base64.




End Base64.

(** ** Predicates of the further properties *)

(** The buttons [handleMouseDown] and [handleMouseUp] track: 0 (left) and
    2 (right). *)
Definition is_drag_button (b : Z) : bool := (b =? 0)%Z || (b =? 2)%Z.

(** The canvas is there and gives a 2D context: the two tests at the head
    of [renderLoop]. *)
Definition has_context (w : World) : bool :=
  match canvasRef w with
  | Some canvas => has_2d_context canvas
  | None => false
  end.

(** [w'] is [w] in all that an iteration of the loop reads or writes, the
    clock and the trace apart. *)
Definition loop_state_kept (w w' : World) : Prop :=
  canvasRef w' = canvasRef w /\ isRendering w' = isRendering w
  /\ frameCount w' = frameCount w /\ fps w' = fps w
  /\ frontendPerfSamples w' = frontendPerfSamples w
  /\ animationId w' = animationId w
  /\ animation_frames w' = animation_frames w
  /\ next_animation_frame w' = next_animation_frame w.

(** What the end of a successful iteration, resumed in [w], leaves in [w']:
    one more frame counted, the error display cleared, one sample (whose
    own [fps] field is 0) stored, and the next iteration scheduled if the
    component is rendering. *)
Definition frame_shown (w w' : World) : Prop :=
  frameCount w' = (frameCount w + 1)%float
  /\ errorMessage w' = ""
  /\ (exists sample,
        frontend_fps sample = 0%float
        /\ frontendPerfSamples w' = frontendPerfSamples (store_sample sample w)
        /\ frontendStats w' = frontendStats (store_sample sample w))
  /\ isRendering w' = isRendering w
  /\ (if isRendering w
      then animationId w' = Some (next_animation_frame w)
           /\ animation_frames w' = animation_frames w ++ [next_animation_frame w]
      else animationId w' = animationId w /\ animation_frames w' = animation_frames w).

(** The classes of [getPerfClass], from best to worst. *)
Definition class_rank (class : string) : nat :=
  if String.eqb class "perf-excellent" then 0
  else if String.eqb class "perf-good" then 1
  else if String.eqb class "perf-warn" then 2
  else 3.

(** The requests an iteration of [renderLoop] waits for. *)
Definition is_frame_request (i : issued_request) : bool :=
  match i with
  | Issued (fetch _) => true
  | Issued (response_blob _) => true
  | Issued (createImageBitmap _) => true
  | Issued invoke_get_frame => true
  | Issued _ => false
  end.

(** A suspended iteration of [renderLoop]. *)
Definition iterating (t : task) : bool :=
  match t with
  | Await _ r _ => is_frame_request (Issued r)
  | _ => false
  end.

Definition iterations_in_flight (s : System) : nat :=
  length (List.filter iterating (inflight s)).

(** An iteration resumed in [w0] goes on in pace: it waits for further
    frame requests only, leaves the pending animation frames alone while it
    waits, never throws, and at its end has requested exactly one animation
    frame if the component was rendering when it was last resumed. *)
Fixpoint paced (w0 : World) (t : task) : Prop :=
  match t with
  | Return w =>
      canvasRef w = canvasRef w0
      /\ animation_frames w
         = (if isRendering w0 then animation_frames w0 ++ [next_animation_frame w0]
            else animation_frames w0)
  | Throw _ _ => False
  | Await w r k =>
      is_frame_request (Issued r) = true
      /\ canvasRef w = canvasRef w0
      /\ animation_frames w = animation_frames w0
      /\ forall outcome w1, paced w1 (k outcome w1)
  end.

(** Any other call resumed in [w0]: it never touches the canvas or the
    animation frames and waits for no frame request. *)
Fixpoint inert (w0 : World) (t : task) : Prop :=
  match t with
  | Return w => canvasRef w = canvasRef w0 /\ animation_frames w = animation_frames w0
  | Throw w _ => canvasRef w = canvasRef w0 /\ animation_frames w = animation_frames w0
  | Await w r k =>
      is_frame_request (Issued r) = false
      /\ canvasRef w = canvasRef w0
      /\ animation_frames w = animation_frames w0
      /\ forall outcome w1, inert w1 (k outcome w1)
  end.

Definition settles_in_pace (t : task) : Prop :=
  match t with
  | Await _ r k =>
      if is_frame_request (Issued r)
      then forall outcome w, paced w (k outcome w)
      else forall outcome w, inert w (k outcome w)
  | _ => True
  end.

(** A call of [renderLoop] in [w], up to its first [await]: it ends at once,
    with no frame requested, only when the component is not rendering or
    has no usable canvas; otherwise it is a suspended iteration. *)
Definition starts_in_pace (w : World) (t : task) : Prop :=
  match t with
  | Return w' =>
      canvasRef w' = canvasRef w /\ animation_frames w' = animation_frames w
      /\ (isRendering w = true -> has_context w = false)
  | Throw _ _ => False
  | Await w' r k =>
      isRendering w = true /\ has_context w = true
      /\ is_frame_request (Issued r) = true
      /\ canvasRef w' = canvasRef w
      /\ animation_frames w' = animation_frames w
      /\ forall outcome w1, paced w1 (k outcome w1)
  end.

(** The loop clocks itself: the pending animation frames and the suspended
    iterations are at most one together, none when the component is not
    rendering, and exactly one when it is rendering with a usable canvas. *)
Definition self_clocked (s : System) : Prop :=
  length (animation_frames (world s)) + iterations_in_flight s <= 1
  /\ (isRendering (world s) = false ->
      animation_frames (world s) = [] /\ iterations_in_flight s = 0)
  /\ (isRendering (world s) = true -> has_context (world s) = true ->
      length (animation_frames (world s)) + iterations_in_flight s = 1)
  /\ Forall settles_in_pace (inflight s).

(** A pointer handler that leaves the canvas and the animation frames
    alone and starts no iteration. *)
Definition quiet (h : World -> Part000.handled) : Prop :=
  forall w,
    canvasRef (Part000.after (h w)) = canvasRef w
    /\ animation_frames (Part000.after (h w)) = animation_frames w
    /\ List.filter iterating (Part000.started (h w)) = []
    /\ Forall settles_in_pace (Part000.started (h w)).

(** Rendering started on a component whose canvas is not there. *)
Definition rendering_without_canvas : World :=
  fst (startRendering (initial None still_clock still_clock)).

(** A [Date] clock that advances by half a second with every reading,
    from 2 s on. *)
Definition ticking_clock (n : nat) : number := of_nat (2000 + 500 * n).

(** * Properties *)

(** ** The platform trace through the shared steps *)

Ltac by_cases :=
  repeat match goal with
         | |- context [if ?b then _ else _] => destruct b
         end;
  cbn; try reflexivity.

Lemma store_sample_calls sample w : calls (store_sample sample w) = calls w.
Proof. unfold store_sample. cbn. by_cases. Qed.

Lemma updateFps_calls w : calls (updateFps w) = calls w.
Proof. unfold updateFps. cbn. by_cases. Qed.

Lemma update_statistics_calls w : calls (update_statistics w) = calls w.
Proof.
  unfold update_statistics. cbv zeta. unfold set_errorMessage. cbn [calls].
  rewrite updateFps_calls. reflexivity.
Qed.

Lemma schedule_next_calls w : calls (schedule_next w) = calls w.
Proof. unfold schedule_next. by_cases. Qed.

(** ** Input relay (part_000) *)

(** C7. [sendMouseInput] is fire-and-forget: it issues the one call with
    the record it was given, and whatever the outcome (any payload, any
    rejection) it ends normally in the state it is resumed in, so the
    payload is not used, nothing changes and no error is propagated. *)
Theorem sendMouseInput_fire_and_forget dx dy sd l r w :
  exists k,
    Part000.sendMouseInput dx dy sd l r w
    = Await w (invoke_send_mouse_input (mkMouseInput dx dy sd l r)) k
    /\ forall outcome w', k outcome w' = Return w'.
Proof.
  eexists. split; [reflexivity|]. intros [[]|e] w'; reflexivity.
Qed.

(** C9. A pointer move while neither button is held returns at once: no
    input is submitted, the tracked position is not updated, the state is
    the one before the event. *)
Theorem handleMouseMove_without_button ev w :
  MouseState.leftButton (mouseState w) = false ->
  MouseState.rightButton (mouseState w) = false ->
  Part000.handleMouseMove ev w = Part000.mkHandled w [] false.
Proof.
  intros Hl Hr. unfold Part000.handleMouseMove. rewrite Hl, Hr. reflexivity.
Qed.

Lemma handleMouseMove_without_button_witness :
  Part000.handleMouseMove (mkMouseEvent 0%Z 5%float 7%float) loaded
  = Part000.mkHandled loaded [] false.
Proof.
  apply (handleMouseMove_without_button (mkMouseEvent 0%Z 5%float 7%float) loaded);
    reflexivity.
Defined.

(** C4. Button flags are states, not edges.  Releasing the left (right)
    button clears its flag and submits one record with zero deltas, that
    flag false and the other flag as currently held; no other event type
    exists, and releasing any other button submits nothing.  In every
    submission of the release, move and wheel handlers the flags are the
    tracked state at the time of sending. *)
Theorem handleMouseUp_reports_state ev wev w :
  let m := mouseState w in
  let up := Part000.handleMouseUp ev w in
  submissions up =
    (if (button ev =? 0)%Z then
       [mkMouseInput 0%float 0%float 0%float false (MouseState.rightButton m)]
     else if (button ev =? 2)%Z then
       [mkMouseInput 0%float 0%float 0%float (MouseState.leftButton m) false]
     else [])
  /\ mouseState (Part000.after up) =
    (if (button ev =? 0)%Z then
       MouseState.mk false (MouseState.rightButton m) (MouseState.lastX m) (MouseState.lastY m)
     else if (button ev =? 2)%Z then
       MouseState.mk (MouseState.leftButton m) false (MouseState.lastX m) (MouseState.lastY m)
     else m)
  /\ Forall (carries_state (mouseState (Part000.after up))) (submissions up)
  /\ Forall (carries_state (mouseState (Part000.after (Part000.handleMouseMove ev w))))
       (submissions (Part000.handleMouseMove ev w))
  /\ Forall (carries_state (mouseState (Part000.after (Part000.handleWheel wev w))))
       (submissions (Part000.handleWheel wev w))
  /\ submissions (Part000.handleMouseDown ev w) = [].
Proof.
  cbv zeta. unfold Part000.handleMouseUp, Part000.handleMouseMove, Part000.handleWheel.
  repeat split.
  - destruct (button ev =? 0)%Z; [reflexivity|]. destruct (button ev =? 2)%Z; reflexivity.
  - destruct (button ev =? 0)%Z; [reflexivity|]. destruct (button ev =? 2)%Z; reflexivity.
  - destruct (button ev =? 0)%Z; [|destruct (button ev =? 2)%Z]; repeat constructor.
  - destruct (negb _ && negb _); repeat constructor.
  - repeat constructor.
Qed.

(** C5, as the specification states it, fails: the wheel handler does not
    submit the raw scroll delta.  For a wheel event with [deltaY = 100] the
    submitted [scrollDelta] is [-1]. *)
Lemma wheel_delta_is_not_forwarded_raw :
  ~ (forall wev w,
       Forall (fun args => scrollDelta args = wheel_deltaY wev)
         (submissions (Part000.handleWheel wev w))).
Proof.
  intros H. specialize (H (mkWheelEvent 100%float) loaded).
  apply Forall_cons in H as [H _].
  apply (f_equal (fun x => PrimFloat.eqb x 100%float)) in H.
  vm_compute in H. discriminate.
Qed.

(** C5, amended.  A pointer move while a button is held submits the raw
    differences of the client coordinates to the last tracked position,
    with a zero scroll delta, and then tracks the new position (without a
    button it submits nothing); a wheel event submits zero pointer deltas
    and the scroll delta [-deltaY * 0.01]: sign inverted, scaled by 0.01. *)
Theorem pointer_deltas_as_submitted ev wev w :
  let m := mouseState w in
  submissions (Part000.handleMouseMove ev w) =
    (if negb (MouseState.leftButton m) && negb (MouseState.rightButton m) then []
     else [mkMouseInput (clientX ev - MouseState.lastX m)%float
                        (clientY ev - MouseState.lastY m)%float
                        0%float (MouseState.leftButton m) (MouseState.rightButton m)])
  /\ submissions (Part000.handleWheel wev w) =
    [mkMouseInput 0%float 0%float ((- wheel_deltaY wev) * 0.01)%float
       (MouseState.leftButton m) (MouseState.rightButton m)]
  /\ mouseState (Part000.after (Part000.handleMouseMove ev w)) =
    (if negb (MouseState.leftButton m) && negb (MouseState.rightButton m) then m
     else MouseState.mk (MouseState.leftButton m) (MouseState.rightButton m)
            (clientX ev) (clientY ev)).
Proof.
  cbv zeta. unfold Part000.handleMouseMove, Part000.handleWheel.
  destruct (negb _ && negb _); repeat split; reflexivity.
Qed.

(** ** The render loop *)

Lemma rendering_is_ready : ready rendering.
Proof. split; [reflexivity|]. eexists. split; reflexivity. Qed.

(** C1. The binary path never Base64-decodes.  An iteration of the
    part_000 loop fetches [http://frame.localhost/frame]; of the answer it
    takes the body as a blob, hands that very blob to [createImageBitmap]
    and draws that very bitmap.  From the arrival of the response to the
    end of the iteration the platform trace grows by the draw and the
    release of the bitmap only: no [atob], no other call. *)
Theorem binary_frame_is_drawn_from_the_body w :
  ready w ->
  exists w1 k1,
    Part000.renderLoop w = Await w1 (fetch "http://frame.localhost/frame") k1
    /\ calls w1 = calls w
    /\ forall response wa, ok response = true ->
       exists k2,
         k1 (Ok response) wa = Await wa (response_blob response) k2
         /\ forall blob wb,
            exists wb' k3,
              k2 (Ok blob) wb = Await wb' (createImageBitmap blob) k3
              /\ calls wb' = calls wb
              /\ forall bitmap wc,
                 exists wd,
                   k3 (Ok bitmap) wc = Return wd
                   /\ calls wd
                      = calls wc ++ [drawImage bitmap 0%float 0%float; bitmap_close bitmap]
                   /\ Forall (fun c => is_text_decoding c = false)
                        [drawImage bitmap 0%float 0%float; bitmap_close bitmap].
Proof.
  intros (Hr & canvas & Hc & Hctx).
  unfold Part000.renderLoop. rewrite Hr. cbn [negb performance_now].
  cbn -[pretty]. rewrite Hc. unfold getContext. rewrite Hctx.
  do 2 eexists. split; [reflexivity|]. split; [reflexivity|].
  intros response wa Hok. rewrite Hok. cbn [negb].
  eexists. split; [reflexivity|].
  intros blob wb. do 2 eexists. split; [reflexivity|]. split; [reflexivity|].
  intros bitmap wc. eexists. split; [reflexivity|]. split.
  - rewrite schedule_next_calls, update_statistics_calls, store_sample_calls.
    cbn. rewrite <- app_assoc. reflexivity.
  - repeat constructor.
Qed.

Lemma binary_frame_is_drawn_from_the_body_witness :
  ready rendering
  /\ exists w1 k1,
       Part000.renderLoop rendering = Await w1 (fetch "http://frame.localhost/frame") k1
       /\ calls w1 = calls rendering.
Proof.
  split; [exact rendering_is_ready|].
  destruct (binary_frame_is_drawn_from_the_body rendering rendering_is_ready)
    as (w1 & k1 & H1 & H2 & _).
  exists w1, k1. split; assumption.
Defined.

(** The [catch] clause followed by the scheduling step, applied to a state
    that differs from [w] in the clock and the trace only. *)
Lemma caught_keeps_alive e w reads cs :
  kept_alive w
    (Return (schedule_next
               (catch_error e (set_calls (calls w ++ cs) (set_clock_reads reads w))))).
Proof.
  eexists. split; [reflexivity|].
  unfold schedule_next, catch_error, Date_now. cbn.
  destruct (PrimFloat.ltb _ _); cbn; destruct (isRendering w) eqn:Hr; cbn;
    (split; [repeat split; eauto | intros; try discriminate; split; reflexivity]).
Qed.

Lemma caught_at_once e w : kept_alive w (Return (schedule_next (catch_error e w))).
Proof.
  replace w with (set_calls (calls w ++ []) (set_clock_reads (clock_reads w) w)) at 2
    by (rewrite app_nil_r; destruct w; reflexivity).
  apply caught_keeps_alive.
Qed.

(** C6. A failed frame fetch does not end the render loop.  In both
    revisions, wherever the iteration fails (the request is rejected, the
    response is not ok, the body or the bitmap cannot be had, the Base64
    text or the image data is refused) the failure is caught: the iteration
    ends normally with no further request (nothing is retried inside), at
    most the error display and its debounce stamp change, and if the
    component is still rendering the next iteration is scheduled with
    [requestAnimationFrame]. *)
Theorem failed_fetch_keeps_the_loop_alive w :
  ready w ->
  (exists w1 k1,
      Part000.renderLoop w = Await w1 (fetch "http://frame.localhost/frame") k1
      /\ (forall e wa, kept_alive wa (k1 (Err e) wa))
      /\ (forall response wa, ok response = false -> kept_alive wa (k1 (Ok response) wa))
      /\ (forall response wa, ok response = true ->
          exists k2,
            k1 (Ok response) wa = Await wa (response_blob response) k2
            /\ (forall e wb, kept_alive wb (k2 (Err e) wb))
            /\ (forall blob wb,
                exists wb' k3,
                  k2 (Ok blob) wb = Await wb' (createImageBitmap blob) k3
                  /\ forall e wc, kept_alive wc (k3 (Err e) wc))))
  /\ (exists w1 k1,
      AppVue.renderLoop w = Await w1 invoke_get_frame k1
      /\ (forall e wa, kept_alive wa (k1 (Err e) wa))
      /\ (forall response wa e,
          AppVue.decode_frame response = Err e -> kept_alive wa (k1 (Ok response) wa))).
Proof.
  intros (Hr & canvas & Hc & Hctx). split.
  - unfold Part000.renderLoop. rewrite Hr. cbn [negb performance_now].
    cbn -[pretty kept_alive schedule_next catch_error]. rewrite Hc.
    unfold getContext. rewrite Hctx.
    do 2 eexists. split; [reflexivity|]. split; [|split].
    + intros e wa. apply caught_at_once.
    + intros response wa Hok. rewrite Hok. apply caught_at_once.
    + intros response wa Hok. rewrite Hok. cbn [negb].
      eexists. split; [reflexivity|]. split.
      * intros e wb. apply caught_at_once.
      * intros blob wb. do 2 eexists. split; [reflexivity|].
        intros e wc. apply caught_at_once.
  - unfold AppVue.renderLoop. rewrite Hr. cbn [negb performance_now].
    cbn -[kept_alive schedule_next catch_error AppVue.decode_frame]. rewrite Hc.
    unfold getContext. rewrite Hctx.
    do 2 eexists. split; [reflexivity|]. split.
    + intros e wa. apply caught_at_once.
    + intros response wa e He. rewrite He.
      exact (caught_keeps_alive e wa (S (S (clock_reads wa))) [call_atob (data response)]).
Qed.

Lemma failed_fetch_keeps_the_loop_alive_witness :
  ready rendering
  /\ exists w1 k1,
       Part000.renderLoop rendering = Await w1 (fetch "http://frame.localhost/frame") k1
       /\ forall e wa, kept_alive wa (k1 (Err e) wa).
Proof.
  split; [exact rendering_is_ready|].
  destruct (failed_fetch_keeps_the_loop_alive rendering rendering_is_ready)
    as [(w1 & k1 & H1 & H2 & _) _].
  exists w1, k1. split; assumption.
Defined.

(** ** The sample window *)

Section Window.
Context {A : Type}.
Implicit Types (l : list A) (x : A).

Lemma most_recent_length n l : length (most_recent n l) = Nat.min (length l) n.
Proof. unfold most_recent. rewrite length_drop. lia. Qed.

Lemma tail_drop l : tail l = drop 1 l.
Proof. destruct l; [reflexivity | simpl; rewrite drop_0; reflexivity]. Qed.

(** [push], then [shift] if more than [n] are held: the last [n] of the
    longer history. *)
Lemma push_shift n l x :
  0 < n ->
  (if (n <? length (most_recent n l ++ [x]))%nat
   then tail (most_recent n l ++ [x])
   else most_recent n l ++ [x])
  = most_recent n (l ++ [x]).
Proof.
  intros Hn.
  rewrite length_app, most_recent_length. simpl. unfold most_recent.
  rewrite length_app. simpl.
  destruct (Nat.ltb_spec n (Nat.min (length l) n + 1)) as [H|H].
  - rewrite tail_drop, drop_app_le by (rewrite length_drop; lia).
    rewrite drop_drop, drop_app_le by lia. do 2 f_equal. lia.
  - replace (length l - n) with 0 by lia.
    replace (length l + 1 - n) with 0 by lia. rewrite !drop_0. reflexivity.
Qed.

End Window.

Lemma samples_set v w : frontendPerfSamples (set_frontendPerfSamples v w) = v.
Proof. reflexivity. Qed.

Lemma store_sample_unfold sample w :
  store_sample sample w =
  let window :=
    if (30 <? length (frontendPerfSamples w ++ [sample]))%nat
    then tail (frontendPerfSamples w ++ [sample])
    else frontendPerfSamples w ++ [sample] in
  if (0 <? length window)%nat
  then set_frontendStats (averages window (fps w)) (set_frontendPerfSamples window w)
  else set_frontendPerfSamples window w.
Proof.
  unfold store_sample. cbv zeta. rewrite samples_set.
  destruct (30 <? _)%nat; rewrite ?samples_set; destruct (0 <? _)%nat; reflexivity.
Qed.

Lemma store_sample_window sample w :
  frontendPerfSamples (store_sample sample w)
  = (if (30 <? length (frontendPerfSamples w ++ [sample]))%nat
     then tail (frontendPerfSamples w ++ [sample])
     else frontendPerfSamples w ++ [sample]).
Proof.
  rewrite store_sample_unfold. cbv zeta. destruct (0 <? _)%nat; reflexivity.
Qed.

Lemma store_sample_stats sample w :
  frontendStats (store_sample sample w)
  = averages (frontendPerfSamples (store_sample sample w)) (fps w).
Proof.
  rewrite store_sample_window, store_sample_unfold. cbv zeta.
  destruct (0 <? _)%nat eqn:H0; [reflexivity|].
  apply Nat.ltb_ge in H0. exfalso. revert H0.
  rewrite length_app. cbn [length].
  destruct (30 <? _)%nat eqn:H30.
  - apply Nat.ltb_lt in H30.
    destruct (frontendPerfSamples w) as [|a [|b l]]; cbn in *; lia.
  - rewrite length_app. cbn. lia.
Qed.

Lemma recorded_window samples w :
  recorded samples w -> frontendPerfSamples w = most_recent 30 samples.
Proof.
  induction 1 as [w H | samples w sample _ IH | samples w w' _ IH Heq].
  - rewrite H. reflexivity.
  - rewrite store_sample_window, IH. apply push_shift. lia.
  - congruence.
Qed.

Lemma recorded_store_all samples w :
  frontendPerfSamples w = [] -> recorded samples (store_all samples w).
Proof.
  intros Hw. induction samples as [|sample samples IH] using rev_ind.
  - apply recorded_none, Hw.
  - unfold store_all. rewrite fold_left_app. apply recorded_sample, IH.
Qed.

(** The code's [avg] is the arithmetic mean of the metric over the
    samples. *)
Lemma avg_is_arithmetic_mean key samples :
  avg key samples = arithmetic_mean (key <$> samples).
Proof.
  unfold avg, arithmetic_mean. rewrite length_fmap. f_equal.
  induction samples as [|sample samples IH] using rev_ind; [reflexivity|].
  rewrite fold_left_app, fmap_app, rev_app_distr. cbn. rewrite IH. reflexivity.
Qed.

Lemma averages_are_means window current_fps :
  averages window current_fps = window_means window current_fps.
Proof. unfold averages, window_means. rewrite !avg_is_arithmetic_mean. reflexivity. Qed.

(** C3. The window holds the most recent samples, 30 at most.  After the
    samples [samples] were stored (whatever else happened in between) the
    window is their last 30; it never holds more than 30 entries, and holds
    exactly 30 once more than 30 were stored.  Storing one more sample into
    a full window drops exactly its oldest entry, and the statistics set by
    that insertion are, metric by metric, the arithmetic mean (the sum of
    the values over their number) over the new window, that is over the
    last 30 samples. *)
Theorem sample_window_keeps_last_30 samples w :
  recorded samples w ->
  frontendPerfSamples w = most_recent 30 samples
  /\ length (frontendPerfSamples w) <= 30
  /\ (30 < length samples -> length (frontendPerfSamples w) = 30)
  /\ forall sample,
       frontendPerfSamples (store_sample sample w) = most_recent 30 (samples ++ [sample])
       /\ frontendStats (store_sample sample w)
          = window_means (most_recent 30 (samples ++ [sample])) (fps w)
       /\ (30 <= length samples ->
           frontendPerfSamples (store_sample sample w)
           = tail (frontendPerfSamples w) ++ [sample]).
Proof.
  intros H. pose proof (recorded_window samples w H) as Hw.
  assert (Hnext : forall sample,
    frontendPerfSamples (store_sample sample w) = most_recent 30 (samples ++ [sample])).
  { intros sample. rewrite store_sample_window, Hw. apply push_shift. lia. }
  split; [exact Hw|]. rewrite Hw, most_recent_length.
  split; [lia|]. split; [lia|].
  intros sample. split; [apply Hnext|]. split.
  - rewrite store_sample_stats, Hnext. apply averages_are_means.
  - intros Hfull. rewrite store_sample_window, Hw.
    rewrite length_app, most_recent_length. cbn [length].
    replace (Nat.min (length samples) 30 + 1) with 31 by lia. cbn [Nat.ltb Nat.leb].
    assert (Hne : most_recent 30 samples <> []).
    { intros E. apply (f_equal length) in E. rewrite most_recent_length in E.
      cbn in E. lia. }
    destruct (most_recent 30 samples); [congruence | reflexivity].
Qed.

(** Thirty-one samples that all differ, numbered 1 to 31: the window is
    then the samples 2 to 31, and the statistics are their means, 16.5 for
    the first metric and its double, triple and sixfold for the others. *)
Lemma sample_window_keeps_last_30_witness :
  frontendPerfSamples
    (store_sample (numbered_sample 31) (store_all (numbered_sample <$> seq 1 30) loaded))
  = numbered_sample <$> seq 2 30
  /\ frontendStats
       (store_sample (numbered_sample 31) (store_all (numbered_sample <$> seq 1 30) loaded))
     = mkFrontendPerf 16.5%float 33%float 49.5%float 99%float 0%float.
Proof.
  destruct (sample_window_keeps_last_30 (numbered_sample <$> seq 1 30)
              (store_all (numbered_sample <$> seq 1 30) loaded)
              (recorded_store_all (numbered_sample <$> seq 1 30) loaded eq_refl))
    as (_ & _ & _ & H).
  destruct (H (numbered_sample 31)) as (H1 & H2 & _).
  split.
  - etransitivity; [exact H1|]. vm_compute. reflexivity.
  - etransitivity; [exact H2|]. vm_compute. reflexivity.
Defined.

(** ** The structured frame call: Base64 *)

Module Base64Facts.
Import Renderer Base64.






(** *** The alphabet *)






(** *** Decoding what was encoded *)







End Base64Facts.

(** *** The client's copy loop *)

Lemma get_string_of_list cs i : String.get i (string_of_list_ascii cs) = cs !! i.
Proof.
  revert i. induction cs as [|c cs IH]; intros [|i]; cbn; auto.
Qed.

Lemma length_string_of_list cs : String.length (string_of_list_ascii cs) = length cs.
Proof. induction cs; cbn; auto. Qed.

Lemma clamp_char_code c : N.min (N_of_ascii c) 255 = N_of_ascii c.
Proof. pose proof (N_ascii_bounded c). lia. Qed.

Lemma copy_char_codes_spec cs n i bytes :
  length bytes = length cs -> i + n = length cs ->
  AppVue.copy_char_codes n i (string_of_list_ascii cs) bytes
  = take i bytes ++ (N_of_ascii <$> drop i cs).
Proof.
  revert i bytes. induction n as [|n IH]; intros i bytes Hlen Hi.
  - cbn. rewrite take_ge, drop_ge by lia. cbn. rewrite app_nil_r. reflexivity.
  - cbn [AppVue.copy_char_codes].
    destruct (lookup_lt_is_Some_2 cs i) as [c Hc]; [lia|].
    rewrite IH by (unfold store; rewrite ?length_insert; lia).
    unfold store, charCodeAt. rewrite get_string_of_list, Hc.
    change (default 0%N (N_of_ascii <$> Some c)) with (N_of_ascii c).
    rewrite clamp_char_code.
    rewrite (take_S_r _ _ (N_of_ascii c)) by (apply list_lookup_insert_eq; lia).
    rewrite take_insert_ge by lia.
    rewrite (drop_S cs c i Hc). cbn. rewrite <- app_assoc. reflexivity.
Qed.

Lemma bytes_of_binary_string_spec cs :
  AppVue.bytes_of_binary_string (string_of_list_ascii cs) = N_of_ascii <$> cs.
Proof.
  unfold AppVue.bytes_of_binary_string, new_Uint8ClampedArray.
  rewrite length_string_of_list.
  rewrite copy_char_codes_spec by (rewrite ?length_replicate; lia).
  reflexivity.
Qed.



Lemma new_ImageData_exact bytes sw sh image :
  new_ImageData bytes sw sh = Ok image ->
  image = mkImageData bytes (ToUint32 sw) (ToUint32 sh)
  /\ N.of_nat (length bytes) = (ToUint32 sw * ToUint32 sh * 4)%N.
Proof.
  unfold new_ImageData. cbv zeta.
  generalize (ToUint32 sw) as w, (ToUint32 sh) as h. intros w h.
  destruct ((N.of_nat (length bytes) =? 0)%N || _) eqn:H1; [intros; discriminate|].
  destruct ((w =? 0)%N || _) eqn:H2; [intros; discriminate|].
  destruct (negb (_ / w =? h)%N) eqn:H3; [intros; discriminate|].
  intros [= <-]. split; [reflexivity|].
  apply orb_false_elim in H1 as [H1a H1b]. apply orb_false_elim in H2 as [H2a H2b].
  apply negb_false_iff in H1b, H2b, H3.
  apply N.eqb_eq in H1b, H2b, H3. apply N.eqb_neq in H1a, H2a.
  set (len := N.of_nat (length bytes)) in *.
  pose proof (N.div_mod len 4 ltac:(lia)) as E1.
  pose proof (N.div_mod (len / 4) w H2a) as E2.
  rewrite H1b in E1. rewrite H2b, H3 in E2. lia.
Qed.

Lemma new_ImageData_accepts bytes sw sh :
  bytes <> [] -> N.of_nat (length bytes) = (ToUint32 sw * ToUint32 sh * 4)%N ->
  new_ImageData bytes sw sh = Ok (mkImageData bytes (ToUint32 sw) (ToUint32 sh)).
Proof.
  unfold new_ImageData. cbv zeta.
  generalize (ToUint32 sw) as w, (ToUint32 sh) as h. intros w h Hne Hlen.
  rewrite Hlen.
  assert (Hpos : (w * h * 4 <> 0)%N).
  { rewrite <- Hlen. destruct bytes; [congruence | cbn; lia]. }
  assert (Hw : w <> 0%N) by lia.
  rewrite N.Div0.mod_mul. rewrite N.div_mul by lia.
  rewrite (N.mul_comm w h), N.Div0.mod_mul, N.div_mul by exact Hw.
  destruct (N.eqb_spec (h * w * 4) 0) as [E|_]; [lia|].
  destruct (N.eqb_spec w 0) as [E|_]; [lia|].
  rewrite !N.eqb_refl. reflexivity.
Qed.

(** An empty buffer is refused whatever the dimensions. *)
Lemma new_ImageData_empty sw sh : exists e, new_ImageData [] sw sh = Err e.
Proof. eexists. reflexivity. Qed.






Example red_pixel_is_decoded :
  AppVue.decode_frame (Renderer.get_frame (Renderer.mkFrame 1 1 [255; 0; 0; 255]%N))
  = Ok (mkImageData [255; 0; 0; 255]%N 1 1).
Proof. reflexivity. Qed.

Example short_data_is_refused :
  exists e, AppVue.decode_frame (mkFrameResponse "AAAA" 1 1) = Err e.
Proof. eexists. reflexivity. Qed.

(** ** The statistics record *)

Lemma toFixed_of_number o property digits classed :
  is_Some (toFixed_of o property digits classed) <-> is_Some (number_at o property).
Proof.
  unfold toFixed_of, number_at.
  destruct (o !! property) as [[x|?|?|]|]; split; intros [? H]; try discriminate H; eauto.
Qed.

Lemma toFixed_of_agree o o' property digits classed :
  o !! property = o' !! property ->
  toFixed_of o property digits classed = toFixed_of o' property digits classed.
Proof. unfold toFixed_of. intros ->. reflexivity. Qed.

(** C8, as the specification states it, fails.  The record of a
    successful statistics call, as the client declares it, does not have
    exactly the property names the specification lists: it has no property
    [fps].  And the client cannot show a record that has exactly the
    specified properties, all numbers: its template takes
    [backendStats.bevy_fps.toFixed(1)], which throws on it. *)
Lemma stats_fields_are_not_the_specified_ones :
  ~ (forall stats : PerformanceStats,
       dom (object_of_PerformanceStats stats) = list_to_set specified_stats_fields)
  /\ dom stats_as_specified = list_to_set specified_stats_fields
  /\ map_Forall (fun _ v => is_numeric v = true) stats_as_specified
  /\ backend_stats_items stats_as_specified 0%float = None
  /\ PerformanceStats_of_object stats_as_specified = None.
Proof.
  split; [|split; [|split; [|split]]].
  - intros H. specialize (H zero_stats).
    assert (Hin : "fps" ∈ (list_to_set specified_stats_fields : gset string)).
    { unfold specified_stats_fields. set_solver. }
    rewrite <- H in Hin. apply elem_of_dom in Hin as [v Hv].
    vm_compute in Hv. discriminate.
  - unfold stats_as_specified. rewrite dom_list_to_map_L. reflexivity.
  - unfold stats_as_specified. apply map_Forall_lookup. intros k v Hk.
    apply elem_of_list_to_map_2 in Hk.
    repeat (apply elem_of_cons in Hk as [Hk|Hk]; [injection Hk as -> ->; reflexivity|]).
    inversion Hk.
  - vm_compute. reflexivity.
  - vm_compute. reflexivity.
Qed.

(** C8, amended.  The record of a successful statistics call, which
    [updateBackendStats] stores as it arrives, has exactly the properties
    [gpu_transfer_ms], [data_processing_ms], [frame_encoding_ms],
    [bevy_fps], [frame_count], [data_size_kb], [tauri_get_frame_ms] and
    [tauri_serialize_ms], all of them numbers, and the panel shows every
    one of them.  These are the names the client reads: the panel is
    rendered exactly when the seven properties it formats are numbers, it
    depends on no property but these eight, and an object with exactly the
    names of the specification ([fps], [get_frame_ms], [serialize_ms] for
    three of them) is never rendered. *)
Theorem stats_record_fields stats :
  dom (object_of_PerformanceStats stats) = list_to_set declared_stats_fields
  /\ map_Forall (fun _ v => is_numeric v = true) (object_of_PerformanceStats stats)
  /\ PerformanceStats_of_object (object_of_PerformanceStats stats) = Some stats
  /\ (forall w, exists k,
        updateBackendStats w = Await w invoke_get_performance_stats k
        /\ forall w', k (Ok stats) w' = Return (set_backendStats stats w')
                      /\ backendStats (set_backendStats stats w') = stats)
  /\ (forall tauri_call,
        backend_stats_items (object_of_PerformanceStats stats) tauri_call
        = Some [ mkPerfValue None (fixed (bevy_fps stats) 1);
                 mkPerfValue (Some (getPerfClass (gpu_transfer_ms stats)))
                   (fixed (gpu_transfer_ms stats) 2);
                 mkPerfValue (Some (getPerfClass (data_processing_ms stats)))
                   (fixed (data_processing_ms stats) 2);
                 mkPerfValue (Some (getPerfClass (frame_encoding_ms stats)))
                   (fixed (frame_encoding_ms stats) 2);
                 mkPerfValue None (fixed (data_size_kb stats) 1);
                 mkPerfValue None (interpolated (Some (Number (frame_count stats))));
                 mkPerfValue (Some (getPerfClass (tauri_get_frame_ms stats)))
                   (fixed (tauri_get_frame_ms stats) 2);
                 mkPerfValue (Some (getPerfClass (tauri_serialize_ms stats)))
                   (fixed (tauri_serialize_ms stats) 2);
                 mkPerfValue None
                   (fixed (tauri_call - tauri_get_frame_ms stats
                           - tauri_serialize_ms stats)%float 2) ])
  /\ (forall o tauri_call,
        is_Some (backend_stats_items o tauri_call)
        <-> Forall (fun property => is_Some (number_at o property))
              [ "bevy_fps"; "gpu_transfer_ms"; "data_processing_ms"; "frame_encoding_ms";
                "data_size_kb"; "tauri_get_frame_ms"; "tauri_serialize_ms" ])
  /\ (forall o o' tauri_call,
        (forall property, property ∈ declared_stats_fields -> o !! property = o' !! property) ->
        backend_stats_items o tauri_call = backend_stats_items o' tauri_call)
  /\ (forall o tauri_call,
        dom o = list_to_set specified_stats_fields ->
        backend_stats_items o tauri_call = None).
Proof.
  split; [|split; [|split; [|split; [|split; [|split; [|split]]]]]].
  - unfold object_of_PerformanceStats, declared_stats_fields.
    rewrite dom_list_to_map_L. reflexivity.
  - unfold object_of_PerformanceStats.
    apply map_Forall_lookup. intros k v Hk.
    apply elem_of_list_to_map_2 in Hk.
    repeat (apply elem_of_cons in Hk as [Hk|Hk]; [injection Hk as -> ->; reflexivity|]).
    inversion Hk.
  - destruct stats. reflexivity.
  - intros w. eexists. split; [reflexivity|]. intros w'. split; reflexivity.
  - intros tauri_call. destruct stats. reflexivity.
  - intros o tauri_call. rewrite !Forall_cons, Forall_nil. unfold backend_stats_items.
    rewrite <- !(toFixed_of_number o _ 1 false) at 1.
    split.
    + intros [items H].
      destruct (toFixed_of o "bevy_fps" 1 false); [|discriminate H].
      destruct (toFixed_of o "gpu_transfer_ms" 2 true) eqn:E2; [|discriminate H].
      destruct (toFixed_of o "data_processing_ms" 2 true) eqn:E3; [|discriminate H].
      destruct (toFixed_of o "frame_encoding_ms" 2 true) eqn:E4; [|discriminate H].
      destruct (toFixed_of o "data_size_kb" 1 false); [|discriminate H].
      destruct (toFixed_of o "tauri_get_frame_ms" 2 true) eqn:E6; [|discriminate H].
      destruct (toFixed_of o "tauri_serialize_ms" 2 true) eqn:E7; [|discriminate H].
      repeat split; eauto;
        apply (toFixed_of_number o _ 1 false), (toFixed_of_number o _ 2 true); eauto.
    + intros (H1 & H2 & H3 & H4 & H5 & H6 & H7 & _).
      apply (toFixed_of_number o _ 1 false), (toFixed_of_number o _ 2 true) in H2, H3, H4, H6, H7.
      pose proof H6 as N6. pose proof H7 as N7.
      apply toFixed_of_number in N6, N7.
      destruct H1 as [? ->], H2 as [? ->], H3 as [? ->], H4 as [? ->], H5 as [? ->],
        H6 as [? ->], H7 as [? ->], N6 as [? ->], N7 as [? ->].
      cbn. eauto.
  - intros o o' tauri_call H. unfold backend_stats_items, number_at.
    rewrite (toFixed_of_agree o o' "bevy_fps"), (toFixed_of_agree o o' "gpu_transfer_ms"),
      (toFixed_of_agree o o' "data_processing_ms"), (toFixed_of_agree o o' "frame_encoding_ms"),
      (toFixed_of_agree o o' "data_size_kb"), (toFixed_of_agree o o' "tauri_get_frame_ms"),
      (toFixed_of_agree o o' "tauri_serialize_ms")
      by (apply H; unfold declared_stats_fields; set_solver).
    rewrite (H "frame_count"), (H "tauri_get_frame_ms"), (H "tauri_serialize_ms")
      by (unfold declared_stats_fields; set_solver).
    reflexivity.
  - intros o tauri_call Hdom. unfold backend_stats_items, toFixed_of.
    assert (Hnone : o !! "bevy_fps" = None).
    { apply not_elem_of_dom. rewrite Hdom, elem_of_list_to_set.
      unfold specified_stats_fields. intros Hin.
      repeat (apply elem_of_cons in Hin as [Hin|Hin]; [discriminate Hin|]).
      inversion Hin. }
    rewrite Hnone. reflexivity.
Qed.

(** ** The event loop: what every handler keeps *)

Lemma control_kept_refl w : control_kept w w.
Proof. repeat split; auto. Qed.

Lemma control_kept_trans w1 w2 w3 :
  control_kept w1 w2 -> control_kept w2 w3 -> control_kept w1 w3.
Proof.
  intros (A1 & A2 & A3 & A4 & A5) (B1 & B2 & B3 & B4 & B5).
  split; [congruence|]. split; [congruence|]. split; [congruence|]. split.
  - intros H. destruct (A4 H) as [A6 A7]. destruct B4 as [B6 B7]; [congruence|].
    split; congruence.
  - auto.
Qed.

(** A change of variables that are not under control. *)
Ltac kept :=
  repeat match goal with
         | |- context [if ?b then _ else _] => destruct b eqn:?
         end;
  cbn; repeat split; try reflexivity; try congruence; auto.

Lemma store_sample_bounded sample w :
  length (frontendPerfSamples w) <= 30 ->
  length (frontendPerfSamples (store_sample sample w)) <= 30.
Proof.
  intros H. rewrite store_sample_window.
  destruct (Nat.ltb_spec 30 (length (frontendPerfSamples w ++ [sample]))) as [H1|H1];
    [|exact H1].
  rewrite tail_drop, length_drop, length_app. cbn. lia.
Qed.

Lemma store_sample_kept sample w : control_kept w (store_sample sample w).
Proof.
  split; [|split; [|split; [|split]]]; try apply store_sample_bounded;
    rewrite store_sample_unfold; cbv zeta; kept.
Qed.

Lemma updateFps_kept w : control_kept w (updateFps w).
Proof. unfold updateFps, performance_now. cbv zeta. kept. Qed.

Lemma update_statistics_kept w : control_kept w (update_statistics w).
Proof.
  unfold update_statistics. cbv zeta.
  apply control_kept_trans with (w2 := set_frameCount (frameCount w + 1)%float w);
    [repeat split; auto|].
  eapply control_kept_trans; [apply updateFps_kept|]. repeat split; auto.
Qed.

Lemma catch_error_kept e w : control_kept w (catch_error e w).
Proof. unfold catch_error, Date_now. cbv zeta. kept. Qed.

Lemma schedule_next_kept w : control_kept w (schedule_next w).
Proof.
  unfold schedule_next. destruct (isRendering w) eqn:H; [|apply control_kept_refl].
  repeat split; try reflexivity; cbn; auto; congruence.
Qed.

Lemma caught_kept e w0 w :
  control_kept w0 w -> control_kept w0 (schedule_next (catch_error e w)).
Proof.
  intros H. eapply control_kept_trans; [exact H|].
  eapply control_kept_trans; [apply catch_error_kept | apply schedule_next_kept].
Qed.

Lemma drawn_kept sample w0 w :
  control_kept w0 w ->
  control_kept w0 (schedule_next (update_statistics (store_sample sample w))).
Proof.
  intros H. eapply control_kept_trans; [exact H|].
  eapply control_kept_trans; [apply store_sample_kept|].
  eapply control_kept_trans; [apply update_statistics_kept | apply schedule_next_kept].
Qed.

(** The clock and the trace are not under control. *)
Ltac unobserved := repeat split; auto.

Lemma Part000_renderLoop_tame w : tame true w (Part000.renderLoop w).
Proof.
  unfold Part000.renderLoop.
  destruct (isRendering w) eqn:Hr; cbn [negb]; [|apply control_kept_refl].
  cbn [performance_now]. cbn -[pretty schedule_next catch_error update_statistics store_sample].
  destruct (canvasRef w) as [canvas|]; [|unobserved].
  destruct (getContext canvas); [|unobserved].
  split; [unobserved|]. split; [auto|].
  intros [response|e] w1; [|apply caught_kept, control_kept_refl].
  destruct (ok response); cbn [negb]; [|apply caught_kept, control_kept_refl].
  split; [apply control_kept_refl|]. split; [discriminate|].
  intros [blob|e] w2; [|apply caught_kept, control_kept_refl].
  split; [unobserved|]. split; [discriminate|].
  intros [bitmap|e] w3; [|apply caught_kept, control_kept_refl].
  apply drawn_kept. unobserved.
Qed.

Lemma AppVue_renderLoop_tame w : tame true w (AppVue.renderLoop w).
Proof.
  unfold AppVue.renderLoop.
  destruct (isRendering w) eqn:Hr; cbn [negb]; [|apply control_kept_refl].
  cbn [performance_now]. cbn -[schedule_next catch_error update_statistics store_sample AppVue.decode_frame].
  destruct (canvasRef w) as [canvas|]; [|unobserved].
  destruct (getContext canvas); [|unobserved].
  split; [unobserved|]. split; [auto|].
  intros [response|e] w1; [|apply caught_kept, control_kept_refl].
  destruct (AppVue.decode_frame response) as [image|e].
  - apply drawn_kept. unobserved.
  - apply caught_kept. unobserved.
Qed.

Lemma timers_consistent_kept w w' :
  control_kept w w' -> timers_consistent w -> timers_consistent w'.
Proof.
  intros (A1 & A2 & A3 & _ & A5) (B1 & B2 & B3).
  split; [congruence|]. split; [rewrite A1, A2; exact B2 | auto].
Qed.

Lemma polls_adopt w ts s :
  polls (adopt w ts s) = polls s ++ List.filter is_poll (ts ≫= request_of).
Proof. unfold polls, adopt. cbn. apply List.filter_app. Qed.

Lemma world_adopt w ts s : world (adopt w ts s) = w.
Proof. reflexivity. Qed.

(** What running a tame task does to the system. *)
Lemma run_task_tame fresh t s w0 :
  tame fresh w0 t -> timers_consistent w0 -> Forall settles_tamely (inflight s) ->
  consistent (run_task t s)
  /\ control_kept w0 (world (run_task t s))
  /\ (fresh = false \/ isRendering w0 = false -> polls (run_task t s) = polls s).
Proof.
  intros Ht Hw Hs. unfold run_task, consistent.
  destruct t as [w | w e | A w r k]; cbn [spawn fst snd tame] in *.
  - rewrite polls_adopt, world_adopt. cbn. rewrite !app_nil_r.
    split; [split; [eapply timers_consistent_kept; eauto | exact Hs] | split; [exact Ht | reflexivity]].
  - rewrite polls_adopt, world_adopt. cbn. rewrite !app_nil_r.
    split; [split; [eapply timers_consistent_kept; eauto | exact Hs] | split; [exact Ht | reflexivity]].
  - destruct Ht as (Hk & Hp & Hrest).
    rewrite polls_adopt, world_adopt. cbn [adopt inflight world].
    split; [split|split].
    + eauto using timers_consistent_kept.
    + apply Forall_app. split; [exact Hs|]. repeat constructor. exact Hrest.
    + exact Hk.
    + intros Hq. cbn -[is_poll]. destruct (is_poll (Issued r)) eqn:E; [|apply app_nil_r].
      destruct (Hp eq_refl) as [-> Hr]. destruct Hq; congruence.
Qed.

Lemma updateBackendStats_settles w : settles_tamely (updateBackendStats w).
Proof. intros [stats|e] w'; unobserved. Qed.

Lemma sendMouseInput_settles dx dy sd l r w :
  settles_tamely (Part000.sendMouseInput dx dy sd l r w).
Proof. intros [[]|e] w'; apply control_kept_refl. Qed.

Lemma startRendering_consistent w :
  timers_consistent w ->
  timers_consistent (fst (startRendering w))
  /\ Forall settles_tamely (snd (startRendering w)).
Proof.
  intros (H1 & H2 & H3). unfold startRendering.
  destruct (isRendering w) eqn:Hr.
  - cbn [fst snd]. split; [|constructor].
    split; [assumption|]. split; [congruence | assumption].
  - specialize (H2 eq_refl). rewrite H2 in H1. cbn. rewrite H1. cbn.
    split; [split; [reflexivity | split; [discriminate | exact H3]]|].
    repeat constructor. apply updateBackendStats_settles.
Qed.

Lemma filter_ne_singleton (id : Z) : filter (fun h => h <> id) [id] = [].
Proof. rewrite filter_cons_False by auto. reflexivity. Qed.

Lemma stopRendering_window w :
  frontendPerfSamples (stopRendering w) = frontendPerfSamples w.
Proof.
  unfold stopRendering. cbn.
  destruct (animationId w); cbn; destruct (statsInterval w); reflexivity.
Qed.

Lemma stopRendering_stopped w :
  timers_consistent w ->
  timers_consistent (stopRendering w)
  /\ isRendering (stopRendering w) = false
  /\ animationId (stopRendering w) = None
  /\ statsInterval (stopRendering w) = None
  /\ intervals (stopRendering w) = []
  /\ (forall id, animationId w = Some id -> id ∉ animation_frames (stopRendering w)).
Proof.
  intros (H1 & H2 & H3).
  assert (Hi : intervals (stopRendering w) = [] /\ statsInterval (stopRendering w) = None).
  { unfold stopRendering. cbn.
    destruct (animationId w) as [a|]; cbn; destruct (statsInterval w) as [i|] eqn:Hi; cbn;
      rewrite ?H1; cbn [option_list]; rewrite ?filter_ne_singleton; split;
      (reflexivity || assumption). }
  destruct Hi as [Hi Hs].
  assert (Hr : isRendering (stopRendering w) = false).
  { unfold stopRendering. cbn.
    destruct (animationId w); cbn; destruct (statsInterval w); reflexivity. }
  split.
  { split; [rewrite Hi, Hs; reflexivity|]. split; [intros _; exact Hs|].
    rewrite stopRendering_window. exact H3. }
  split; [exact Hr|]. split; [|split; [exact Hs|split; [exact Hi|]]].
  - unfold stopRendering. cbn.
    destruct (animationId w) eqn:Ha; cbn; destruct (statsInterval w); cbn;
      (reflexivity || assumption).
  - intros id Ha Hin. revert Hin. unfold stopRendering. cbn. rewrite Ha. cbn.
    destruct (statsInterval w); cbn; intros Hin;
      apply list_elem_of_filter in Hin as [Hne _]; congruence.
Qed.

Lemma pointer_handlers_tame :
  (forall e w, control_kept w (Part000.after (Part000.handleMouseDown e w))
               /\ Forall settles_tamely (Part000.started (Part000.handleMouseDown e w))
               /\ List.filter is_poll (Part000.started (Part000.handleMouseDown e w) ≫= request_of) = [])
  /\ (forall e w, control_kept w (Part000.after (Part000.handleMouseUp e w))
               /\ Forall settles_tamely (Part000.started (Part000.handleMouseUp e w))
               /\ List.filter is_poll (Part000.started (Part000.handleMouseUp e w) ≫= request_of) = [])
  /\ (forall e w, control_kept w (Part000.after (Part000.handleMouseMove e w))
               /\ Forall settles_tamely (Part000.started (Part000.handleMouseMove e w))
               /\ List.filter is_poll (Part000.started (Part000.handleMouseMove e w) ≫= request_of) = [])
  /\ (forall e w, control_kept w (Part000.after (Part000.handleWheel e w))
               /\ Forall settles_tamely (Part000.started (Part000.handleWheel e w))
               /\ List.filter is_poll (Part000.started (Part000.handleWheel e w) ≫= request_of) = [])
  /\ (forall w, control_kept w (Part000.after (Part000.handleContextMenu w))
               /\ Forall settles_tamely (Part000.started (Part000.handleContextMenu w))
               /\ List.filter is_poll (Part000.started (Part000.handleContextMenu w) ≫= request_of) = []).
Proof.
  repeat split; try reflexivity;
    unfold Part000.handleMouseDown, Part000.handleMouseUp, Part000.handleMouseMove,
      Part000.handleWheel, Part000.handleContextMenu;
    repeat match goal with
           | |- context [if ?b then _ else _] => destruct b
           end;
    cbn; try reflexivity; try congruence;
    repeat constructor; intros [[]|?] ?; apply control_kept_refl.
Qed.

Section EventLoopFacts.
Variable renderLoop : World -> task.
Variable pointer_listeners : bool.
Hypothesis renderLoop_tame : forall w, tame true w (renderLoop w).


Lemma pointer_consistent h s :
  (forall w, control_kept w (Part000.after (h w))
             /\ Forall settles_tamely (Part000.started (h w))
             /\ List.filter is_poll (Part000.started (h w) ≫= request_of) = []) ->
  consistent s ->
  forall s', pointer pointer_listeners h s = Some s' ->
  consistent s' /\ control_kept (world s) (world s') /\ polls s' = polls s.
Proof.
  intros Hh [Hw Hs] s'. unfold pointer.
  destruct pointer_listeners; intros [= <-].
  - destruct (Hh (world s)) as (Hk & Ht & Hp).
    rewrite polls_adopt, Hp, app_nil_r. cbn [adopt world inflight].
    split; [split|split]; eauto using timers_consistent_kept.
    apply Forall_app. split; assumption.
  - split; [split; assumption|]. split; [apply control_kept_refl | reflexivity].
Qed.

Lemma cancelAnimationFrame_timers id w :
  timers_consistent w -> timers_consistent (cancelAnimationFrame id w).
Proof. intros H. exact H. Qed.

Lemma step_consistent ev s s' :
  consistent s -> step renderLoop pointer_listeners ev s = Some s' -> consistent s'.
Proof.
  intros [Hw Hs] Hstep. destruct pointer_handlers_tame as (Pd & Pu & Pm & Pw & Pc).
  destruct ev as [| | id | id | i st | e | e | e | e |]; cbn [step] in Hstep.
  - injection Hstep as <-.
    destruct (startRendering_consistent (world s) Hw) as (H1 & H2).
    split; [exact H1|]. cbn. apply Forall_app. split; assumption.
  - injection Hstep as <-.
    destruct (stopRendering_stopped (world s) Hw) as (H1 & _).
    split; [exact H1|]. cbn. rewrite app_nil_r. exact Hs.
  - destruct (decide _); [|discriminate]. injection Hstep as <-.
    eapply run_task_tame; eauto.
  - destruct (decide _); [|discriminate]. injection Hstep as <-.
    unfold run_task, updateBackendStats. cbn.
    split; [exact Hw|]. apply Forall_app. split; [exact Hs|].
    repeat constructor. apply (updateBackendStats_settles (world s)).
  - destruct (inflight s !! i) as [t|] eqn:Ht; [|discriminate]. cbn in Hstep.
    destruct (resume t st (world s)) as [t'|] eqn:Hres; [|discriminate].
    cbn in Hstep. injection Hstep as <-.
    assert (Htame : tame false (world s) t').
    { rewrite Forall_lookup in Hs. specialize (Hs i t Ht).
      destruct t as [| | A w r k]; try discriminate. cbn in Hres.
      destruct (deliver r st) as [o|]; [|discriminate].
      injection Hres as <-. apply Hs. }
    eapply (run_task_tame false t' (mkSystem (world s) (delete i (inflight s)) (issued s)));
      eauto.
    cbn. apply Forall_delete, Hs.
  - eapply pointer_consistent in Hstep as [H _]; eauto. split; assumption.
  - eapply pointer_consistent in Hstep as [H _]; eauto. split; assumption.
  - eapply pointer_consistent in Hstep as [H _]; eauto. split; assumption.
  - eapply pointer_consistent in Hstep as [H _]; eauto. split; assumption.
  - eapply pointer_consistent in Hstep as [H _]; eauto. split; assumption.
Qed.

Lemma run_consistent evs s s' :
  consistent s -> run renderLoop pointer_listeners evs s = Some s' -> consistent s'.
Proof.
  revert s. induction evs as [|ev evs IH]; intros s Hs; cbn.
  - intros [= <-]. exact Hs.
  - destruct (step renderLoop pointer_listeners ev s) as [s1|] eqn:H1; [|discriminate]. cbn.
    apply IH. eapply step_consistent; eauto.
Qed.




End EventLoopFacts.

(** ** Starting and stopping *)

Lemma renderLoop_of_tame r w : tame true w (renderLoop_of r w).
Proof. destruct r; [apply AppVue_renderLoop_tame | apply Part000_renderLoop_tame]. Qed.

Lemma boot_consistent canvas performance_clock Date_clock :
  consistent (boot (initial canvas performance_clock Date_clock)).
Proof.
  split; [|constructor]. split; [reflexivity|]. split; [reflexivity | cbn; lia].
Qed.

(** X1. Calling [startRendering] while rendering is active changes nothing
    and starts nothing. *)
Theorem startRendering_is_idempotent w :
  isRendering w = true -> startRendering w = (w, []).
Proof. intros H. unfold startRendering. rewrite H. reflexivity. Qed.

Lemma startRendering_is_idempotent_witness :
  startRendering rendering = (rendering, []).
Proof. apply (startRendering_is_idempotent rendering). reflexivity. Defined.

(** X2. In every state either revision can reach, the active intervals are the
    one the component holds in [statsInterval], if it holds one: at most
    one statistics poll is ever active, and none while the component is not
    rendering.  The sample window holds at most 30 entries in every such
    state. *)
Theorem one_stats_interval r canvas performance_clock Date_clock evs s :
  client_run r evs (boot (initial canvas performance_clock Date_clock)) = Some s ->
  intervals (world s) = option_list (statsInterval (world s))
  /\ length (intervals (world s)) <= 1
  /\ (isRendering (world s) = false -> intervals (world s) = [])
  /\ length (frontendPerfSamples (world s)) <= 30.
Proof.
  intros Hrun.
  destruct (run_consistent (renderLoop_of r) (has_pointer_listeners r) (renderLoop_of_tame r)
              evs _ s (boot_consistent canvas performance_clock Date_clock) Hrun)
    as [(H1 & H2 & H3) _].
  split; [exact H1|]. split; [|split; [|exact H3]].
  - rewrite H1. destruct (statsInterval (world s)); cbn; lia.
  - intros Hr. rewrite H1, (H2 Hr). reflexivity.
Qed.

Lemma one_stats_interval_witness :
  match client_run binary_endpoint [start_clicked; animation_frame 1] (boot loaded) with
  | Some s => length (intervals (world s)) <= 1
  | None => False
  end.
Proof.
  pose proof (one_stats_interval binary_endpoint (Some (mkCanvas true)) still_clock still_clock
                [start_clicked; animation_frame 1]) as H.
  change (initial (Some (mkCanvas true)) still_clock still_clock) with loaded in H.
  destruct (client_run binary_endpoint [start_clicked; animation_frame 1] (boot loaded))
    as [s|] eqn:E.
  - exact (proj1 (proj2 (H s eq_refl))).
  - apply (f_equal defined) in E. vm_compute in E. discriminate.
Defined.




(** C10 fails on the code in one case.  Start; the first iteration is
    waiting for its frame; Stop and Start are clicked before the request
    settles; the request fails.  The stale iteration then sees the
    component rendering and schedules itself again, next to the iteration
    the second start had scheduled: two animation-frame requests (2 and 3)
    are pending at once, in either revision, and [animationId] holds only
    the second. *)
Theorem restart_while_fetching_doubles_the_loop r :
  (fun s => (animation_frames (world s), animationId (world s), intervals (world s)))
    <$> client_run r restart_while_fetching (boot loaded)
  = Some ([2; 3]%Z, Some 3%Z, [2]%Z).
Proof. destruct r; vm_compute; reflexivity. Qed.

(** ** Dragging

    What the pointer handlers of part_000 do together. *)

(** X4. A drag.  A press of the left button (0) sets the left flag, a press
    of the right button (2) the right flag, and leaves the other flag as it
    was; the tracked position is the point of the press and nothing has
    been submitted.  The first move then submits the offset from the point
    of the press, the next move the offset from the first, each with these
    flags and no scroll, and the tracked position follows the pointer. *)
Theorem drag_submits_offsets down move1 move2 w :
  is_drag_button (button down) = true ->
  let w0 := Part000.after (Part000.handleMouseDown down w) in
  let w1 := Part000.after (Part000.handleMouseMove move1 w0) in
  let l := if (button down =? 0)%Z then true else MouseState.leftButton (mouseState w) in
  let r := if (button down =? 0)%Z then MouseState.rightButton (mouseState w) else true in
  mouseState w0 = MouseState.mk l r (clientX down) (clientY down)
  /\ submissions (Part000.handleMouseDown down w) = []
  /\ submissions (Part000.handleMouseMove move1 w0)
     = [mkMouseInput (clientX move1 - clientX down)%float (clientY move1 - clientY down)%float
          0%float l r]
  /\ mouseState w1 = MouseState.mk l r (clientX move1) (clientY move1)
  /\ submissions (Part000.handleMouseMove move2 w1)
     = [mkMouseInput (clientX move2 - clientX move1)%float (clientY move2 - clientY move1)%float
          0%float l r]
  /\ mouseState (Part000.after (Part000.handleMouseMove move2 w1))
     = MouseState.mk l r (clientX move2) (clientY move2).
Proof.
  intros Hb. cbv zeta. unfold is_drag_button in Hb.
  unfold Part000.handleMouseMove, Part000.handleMouseDown.
  destruct (button down =? 0)%Z eqn:H0; [|destruct (button down =? 2)%Z eqn:H2; [|discriminate]];
    cbn; try (destruct (MouseState.leftButton (mouseState w)); cbn);
    repeat split; try reflexivity.
Qed.

Lemma drag_submits_offsets_witness :
  submissions
    (Part000.handleMouseMove (mkMouseEvent 0 13%float 24%float)
       (Part000.after (Part000.handleMouseDown (mkMouseEvent 0 10%float 20%float) loaded)))
  = [mkMouseInput (13 - 10)%float (24 - 20)%float 0%float true false].
Proof.
  pose proof (drag_submits_offsets (mkMouseEvent 0 10%float 20%float)
                (mkMouseEvent 0 13%float 24%float) (mkMouseEvent 0 13%float 24%float)
                loaded eq_refl) as H.
  exact (proj1 (proj2 (proj2 H))).
Defined.

(** X5. Press and release.  Releasing the button that was pressed clears
    its flag and leaves the other flag and the tracked position as they
    were, submits one record with zero deltas and the flags as they are
    now, and, when no button is held any more, the next move submits
    nothing and changes nothing. *)
Theorem press_and_release_restore_the_flag down up move w :
  is_drag_button (button down) = true -> button up = button down ->
  let m := mouseState w in
  let w0 := Part000.after (Part000.handleMouseDown down w) in
  let released := Part000.handleMouseUp up w0 in
  let l := if (button down =? 0)%Z then false else MouseState.leftButton m in
  let r := if (button down =? 0)%Z then MouseState.rightButton m else false in
  mouseState (Part000.after released) = MouseState.mk l r (clientX down) (clientY down)
  /\ submissions released = [mkMouseInput 0%float 0%float 0%float l r]
  /\ (l || r = false ->
      Part000.handleMouseMove move (Part000.after released)
      = Part000.mkHandled (Part000.after released) [] false).
Proof.
  intros Hb Hup. cbv zeta. unfold is_drag_button in Hb.
  unfold Part000.handleMouseMove, Part000.handleMouseUp, Part000.handleMouseDown.
  rewrite Hup.
  destruct (button down =? 0)%Z eqn:H0; [|destruct (button down =? 2)%Z eqn:H2; [|discriminate]];
    cbn; (split; [reflexivity|]); (split; [reflexivity|]); intros H;
    try (apply orb_false_elim in H as [H _]); rewrite H; reflexivity.
Qed.

Lemma press_and_release_restore_the_flag_witness :
  submissions
    (Part000.handleMouseUp (mkMouseEvent 2 0%float 0%float)
       (Part000.after (Part000.handleMouseDown (mkMouseEvent 2 10%float 20%float) loaded)))
  = [mkMouseInput 0%float 0%float 0%float false false].
Proof.
  pose proof (press_and_release_restore_the_flag (mkMouseEvent 2 10%float 20%float)
                (mkMouseEvent 2 0%float 0%float) (mkMouseEvent 2 0%float 0%float)
                loaded eq_refl eq_refl) as H.
  exact (proj1 (proj2 H)).
Defined.

(** X6. A press of any other button (the middle one, say) moves the tracked
    position to the pointer, prevents the default action and sets no flag:
    with no button held before, the moves that follow and the release of
    that button submit nothing. *)
Theorem other_buttons_start_no_drag down move w :
  is_drag_button (button down) = false ->
  MouseState.leftButton (mouseState w) = false ->
  MouseState.rightButton (mouseState w) = false ->
  let pressed := Part000.handleMouseDown down w in
  let w0 := Part000.after pressed in
  mouseState w0 = MouseState.mk false false (clientX down) (clientY down)
  /\ Part000.started pressed = []
  /\ Part000.defaultPrevented pressed = true
  /\ Part000.handleMouseMove move w0 = Part000.mkHandled w0 [] false
  /\ Part000.handleMouseUp down w0 = Part000.mkHandled w0 [] false.
Proof.
  intros Hb Hl Hr. cbv zeta. unfold is_drag_button in Hb.
  apply orb_false_elim in Hb as [H0 H2].
  unfold Part000.handleMouseMove, Part000.handleMouseUp, Part000.handleMouseDown.
  rewrite H0, H2. cbn. rewrite Hl, Hr. cbn. repeat split; reflexivity.
Qed.

Lemma other_buttons_start_no_drag_witness :
  submissions
    (Part000.handleMouseMove (mkMouseEvent 1 13%float 24%float)
       (Part000.after (Part000.handleMouseDown (mkMouseEvent 1 10%float 20%float) loaded)))
  = [].
Proof.
  pose proof (other_buttons_start_no_drag (mkMouseEvent 1 10%float 20%float)
                (mkMouseEvent 1 13%float 24%float) loaded eq_refl eq_refl eq_refl) as H.
  cbv zeta in H. rewrite (proj1 (proj2 (proj2 (proj2 H)))). reflexivity.
Defined.

(** ** One iteration of the loop *)

Lemma renderLoop_without_context r w :
  isRendering w = true -> has_context w = false ->
  exists message,
    renderLoop_of r w
    = Return (log (console_error message) (set_clock_reads (S (clock_reads w)) w)).
Proof.
  intros Hr Hc. unfold has_context in Hc.
  destruct r; unfold renderLoop_of, AppVue.renderLoop, Part000.renderLoop;
    rewrite Hr; cbn [negb performance_now fst snd];
    change (canvasRef (set_clock_reads (S (clock_reads w)) w)) with (canvasRef w);
    (destruct (canvasRef w) as [canvas|];
     [unfold getContext; rewrite Hc|]); eexists; reflexivity.
Qed.

(** X7. Without a usable canvas the loop ends for good.  When the component
    is rendering and the canvas is missing or gives no 2D context, a call
    of [renderLoop], in either revision, returns at once: it logs one
    error to the console and nothing else, requests no frame and no
    animation frame, shows no error ([errorMessage] is as before) and
    leaves [isRendering] set, so that [startRendering] does nothing in the
    state it leaves. *)
Theorem missing_canvas_ends_the_loop r w :
  isRendering w = true -> has_context w = false ->
  exists w' message,
    renderLoop_of r w = Return w'
    /\ calls w' = calls w ++ [console_error message]
    /\ animation_frames w' = animation_frames w
    /\ animationId w' = animationId w
    /\ errorMessage w' = errorMessage w
    /\ isRendering w' = true
    /\ startRendering w' = (w', []).
Proof.
  intros Hr Hc. destruct (renderLoop_without_context r w Hr Hc) as [message H].
  eexists. exists message. split; [exact H|].
  unfold startRendering. cbn [isRendering log set_calls set_clock_reads]. rewrite Hr.
  repeat split; try reflexivity.
Qed.

Lemma missing_canvas_ends_the_loop_witness :
  exists w' message,
    renderLoop_of binary_endpoint rendering_without_canvas = Return w'
    /\ calls w' = calls rendering_without_canvas ++ [console_error message]
    /\ animation_frames w' = animation_frames rendering_without_canvas.
Proof.
  destruct (missing_canvas_ends_the_loop binary_endpoint rendering_without_canvas
              eq_refl eq_refl) as (w' & message & H1 & H2 & H3 & _).
  exists w', message. repeat split; assumption.
Defined.

Lemma updateFps_frame w :
  frameCount (updateFps w) = frameCount w
  /\ frontendPerfSamples (updateFps w) = frontendPerfSamples w
  /\ frontendStats (updateFps w) = frontendStats w
  /\ isRendering (updateFps w) = isRendering w
  /\ animationId (updateFps w) = animationId w
  /\ animation_frames (updateFps w) = animation_frames w
  /\ next_animation_frame (updateFps w) = next_animation_frame w.
Proof.
  unfold updateFps, performance_now. cbv zeta.
  destruct (ge _ _); repeat split; reflexivity.
Qed.

Lemma store_sample_frame sample w :
  frameCount (store_sample sample w) = frameCount w
  /\ isRendering (store_sample sample w) = isRendering w
  /\ animationId (store_sample sample w) = animationId w
  /\ animation_frames (store_sample sample w) = animation_frames w
  /\ next_animation_frame (store_sample sample w) = next_animation_frame w.
Proof.
  rewrite store_sample_unfold. cbv zeta.
  destruct (0 <? _)%nat; repeat split; reflexivity.
Qed.

Lemma shown_after_store sample w wm :
  frontend_fps sample = 0%float -> loop_state_kept w wm ->
  frame_shown w (schedule_next (update_statistics (store_sample sample wm))).
Proof.
  intros Hs (_ & L2 & L3 & L4 & L5 & L6 & L7 & L8).
  assert (Hwin : frontendPerfSamples (store_sample sample wm)
                 = frontendPerfSamples (store_sample sample w)).
  { rewrite !store_sample_window, L5. reflexivity. }
  assert (Hst : frontendStats (store_sample sample wm)
                = frontendStats (store_sample sample w)).
  { rewrite !store_sample_stats, !store_sample_window, L4, L5. reflexivity. }
  destruct (store_sample_frame sample wm) as (S1 & S2 & S3 & S4 & S5).
  rewrite L3 in S1. rewrite L2 in S2. rewrite L6 in S3. rewrite L7 in S4. rewrite L8 in S5.
  clear L2 L3 L4 L5 L6 L7 L8.
  set (ws := store_sample sample wm) in *. clearbody ws. clear wm.
  destruct (updateFps_frame (set_frameCount (frameCount ws + 1)%float ws))
    as (U1 & U2 & U3 & U4 & U5 & U6 & U7).
  cbn [frameCount frontendPerfSamples frontendStats isRendering animationId animation_frames
       next_animation_frame set_frameCount] in U1, U2, U3, U4, U5, U6, U7.
  change (update_statistics ws)
    with (set_errorMessage "" (updateFps (set_frameCount (frameCount ws + 1)%float ws))).
  set (wf := updateFps (set_frameCount (frameCount ws + 1)%float ws)) in *. clearbody wf.
  rewrite S1 in U1. rewrite Hwin in U2. rewrite Hst in U3. rewrite S2 in U4.
  rewrite S3 in U5. rewrite S4 in U6. rewrite S5 in U7.
  unfold frame_shown, schedule_next, requestAnimationFrame.
  cbn [isRendering set_errorMessage]. rewrite U4.
  destruct (isRendering w) eqn:Hr; cbn; rewrite ?U1, ?U2, ?U3, ?U4, ?U5, ?U6, ?U7;
    (split; [reflexivity|]); (split; [reflexivity|]);
    (split; [exists sample; auto|]); (split; [reflexivity|]); split; reflexivity.
Qed.

(** X8. What a successful iteration leaves.  In either revision, when the
    whole chain of requests is fulfilled (and, in App.vue, the frame
    decodes), the iteration ends normally in a state where one more frame
    is counted, the error display is cleared, one sample has been stored in
    the window with the statistics recomputed from it, and the next
    iteration is scheduled if the component is still rendering.  In
    App.vue the platform trace grows by the [atob] of the data and the
    [putImageData] of the decoded image at the origin. *)
Theorem shown_frame_is_counted w :
  ready w ->
  (exists w1 k1,
      Part000.renderLoop w = Await w1 (fetch "http://frame.localhost/frame") k1
      /\ forall response wa, ok response = true ->
         exists k2,
           k1 (Ok response) wa = Await wa (response_blob response) k2
           /\ forall blob wb,
              exists wb' k3,
                k2 (Ok blob) wb = Await wb' (createImageBitmap blob) k3
                /\ forall bitmap wc,
                   exists wd, k3 (Ok bitmap) wc = Return wd /\ frame_shown wc wd)
  /\ (exists w1 k1,
      AppVue.renderLoop w = Await w1 invoke_get_frame k1
      /\ forall response wa image,
         AppVue.decode_frame response = Ok image ->
         exists wd,
           k1 (Ok response) wa = Return wd
           /\ frame_shown wa wd
           /\ calls wd
              = calls wa ++ [call_atob (data response); putImageData image 0%float 0%float]).
Proof.
  intros (Hr & canvas & Hc & Hctx). split.
  - unfold Part000.renderLoop. rewrite Hr. cbn [negb performance_now].
    cbn -[pretty frame_shown schedule_next update_statistics store_sample]. rewrite Hc.
    unfold getContext. rewrite Hctx.
    do 2 eexists. split; [reflexivity|].
    intros response wa Hok. cbv beta iota. rewrite Hok. cbn [negb].
    eexists. split; [reflexivity|].
    intros blob wb. do 2 eexists. split; [reflexivity|].
    intros bitmap wc. eexists. split; [reflexivity|].
    apply shown_after_store; [reflexivity | repeat split].
  - unfold AppVue.renderLoop. rewrite Hr. cbn [negb performance_now].
    cbn -[frame_shown schedule_next update_statistics store_sample AppVue.decode_frame].
    rewrite Hc. unfold getContext. rewrite Hctx.
    do 2 eexists. split; [reflexivity|].
    intros response wa image Himg. cbv beta iota. cbn [performance_now]. cbv beta iota zeta. rewrite Himg.
    eexists. split; [reflexivity|]. split.
    + apply shown_after_store; [reflexivity | repeat split].
    + rewrite schedule_next_calls, update_statistics_calls, store_sample_calls.
      cbn. rewrite <- app_assoc. reflexivity.
Qed.

Lemma shown_frame_is_counted_witness :
  exists w1 k1,
    AppVue.renderLoop rendering = Await w1 invoke_get_frame k1
    /\ forall response wa image,
       AppVue.decode_frame response = Ok image ->
       exists wd, k1 (Ok response) wa = Return wd /\ frame_shown wa wd.
Proof.
  destruct (shown_frame_is_counted rendering rendering_is_ready)
    as (_ & w1 & k1 & H1 & H2).
  exists w1, k1. split; [exact H1|].
  intros response wa image Himg.
  destruct (H2 response wa image Himg) as (wd & H3 & H4 & _).
  exists wd. split; assumption.
Defined.

(** X9. The error display is debounced.  When an error is caught more than
    a second after the last one that was shown, it is shown, logged as a
    warning and stamped; an error caught next, at most a second later (by
    the [Date] clock), changes neither the display, nor the stamp, nor the
    console: the first message stays. *)
Theorem second_error_is_debounced e1 e2 w :
  let now1 := Date_clock w (clock_reads w) in
  let now2 := Date_clock w (S (clock_reads w)) in
  gt (now1 - lastErrorTime w)%float 1000%float = true ->
  gt (now2 - now1)%float 1000%float = false ->
  let w1 := catch_error e1 w in
  let w2 := catch_error e2 w1 in
  errorMessage w1 = String_of_error e1
  /\ lastErrorTime w1 = now1
  /\ calls w1 = calls w ++ [console_warn "Frame fetch error:" e1]
  /\ errorMessage w2 = String_of_error e1
  /\ lastErrorTime w2 = now1
  /\ calls w2 = calls w1.
Proof.
  cbv zeta. intros H1 H2. unfold catch_error, Date_now.
  cbn -[gt]. rewrite H1. cbn -[gt]. rewrite H2. repeat split; reflexivity.
Qed.

Lemma second_error_is_debounced_witness :
  errorMessage
    (catch_error (Thrown "second")
       (catch_error (Thrown "first") (initial None still_clock ticking_clock)))
  = "first".
Proof.
  pose proof (second_error_is_debounced (Thrown "first") (Thrown "second")
                (initial None still_clock ticking_clock) eq_refl eq_refl) as H.
  exact (proj1 (proj2 (proj2 (proj2 H)))).
Defined.

(** ** Decoding a structured frame *)

Lemma bytes_of_any_binary_string s :
  AppVue.bytes_of_binary_string s = N_of_ascii <$> list_ascii_of_string s.
Proof.
  rewrite <- (string_of_list_ascii_of_string s) at 1. apply bytes_of_binary_string_spec.
Qed.

Lemma length_list_ascii_of_string s : length (list_ascii_of_string s) = String.length s.
Proof. induction s; cbn; auto. Qed.

(** X10. The frames App.vue accepts.  For a response whose width and
    height are non-negative integers, the decoding succeeds exactly when
    [atob] accepts the data and the decoded string is not empty and has
    [w * h * 4] characters, [w] and [h] being the width and the height
    modulo 2^32 (the image constructor takes them as unsigned 32-bit
    integers); the image then has the dimensions [w] and [h] and, as
    pixels, the char codes of the decoded string.  Every other response
    makes the iteration throw. *)
Theorem decode_frame_accepts_exactly response image :
  AppVue.decode_frame response = Ok image
  <-> exists binaryString,
        atob (data response) = Ok binaryString
        /\ binaryString <> ""
        /\ N.of_nat (String.length binaryString)
           = (ToUint32 (width response) * ToUint32 (height response) * 4)%N
        /\ image = mkImageData (N_of_ascii <$> list_ascii_of_string binaryString)
                     (ToUint32 (width response)) (ToUint32 (height response)).
Proof.
  unfold AppVue.decode_frame. split.
  - destruct (atob (data response)) as [b|e]; [|discriminate].
    intros H. exists b. split; [reflexivity|].
    destruct (String.eqb_spec b "") as [->|Hne]; [discriminate H|].
    apply new_ImageData_exact in H as [-> Hlen].
    rewrite bytes_of_any_binary_string in *.
    rewrite length_fmap, length_list_ascii_of_string in Hlen. auto.
  - intros (b & -> & Hne & Hlen & ->).
    rewrite bytes_of_any_binary_string. apply new_ImageData_accepts.
    + destruct b; [congruence | discriminate].
    + rewrite length_fmap, length_list_ascii_of_string. exact Hlen.
Qed.

Lemma decode_frame_accepts_exactly_witness :
  AppVue.decode_frame (mkFrameResponse "/wAA/w==" 4294967297 1)
  = Ok (mkImageData [255; 0; 0; 255]%N 1 1).
Proof.
  apply (proj2 (decode_frame_accepts_exactly (mkFrameResponse "/wAA/w==" 4294967297 1)
                  (mkImageData [255; 0; 0; 255]%N 1 1))).
  exists (string_of_list_ascii (ascii_of_N <$> [255; 0; 0; 255]%N)).
  split; [reflexivity|]. split; [discriminate|]. split; reflexivity.
Defined.

(** ** The performance classes *)

Lemma SFleb_ltb_trans a b c :
  SFleb a b = true -> SFltb b c = true -> SFltb a c = true.
Proof.
  unfold SFleb, SFltb.
  destruct a as [sa|sa| |sa ma ea], b as [sb|sb| |sb mb eb], c as [sc|sc| |sc mc ec];
    cbn; try discriminate; try reflexivity;
    repeat match goal with s : bool |- _ => destruct s end;
    cbn; try discriminate; try reflexivity.
  all: destruct (Z.compare_spec ea eb), (Z.compare_spec eb ec), (Z.compare_spec ea ec);
    try discriminate; try reflexivity; try lia; subst.
  all: rewrite ?Pos.compare_cont_spec; cbn [Pos.switch_Eq];
    destruct (Pos.compare_spec ma mb), (Pos.compare_spec mb mc), (Pos.compare_spec ma mc);
    cbn; try discriminate; try reflexivity; try lia.
Qed.

Lemma leb_ltb_trans a b c :
  PrimFloat.leb a b = true -> PrimFloat.ltb b c = true -> PrimFloat.ltb a c = true.
Proof. rewrite FloatAxioms.leb_spec, !FloatAxioms.ltb_spec. apply SFleb_ltb_trans. Qed.

Lemma ltb_false_up a b c :
  PrimFloat.leb a b = true -> PrimFloat.ltb a c = false -> PrimFloat.ltb b c = false.
Proof.
  intros H1 H2. destruct (PrimFloat.ltb b c) eqn:E; [|reflexivity].
  rewrite (leb_ltb_trans a b c H1 E) in H2. discriminate.
Qed.

(** X11. [getPerfClass] is monotone: a larger number of milliseconds never
    gets a better class (excellent, good, warn, bad, in this order), for
    all numbers, the infinities and the zeros included. *)
Theorem getPerfClass_is_monotone a b :
  PrimFloat.leb a b = true -> class_rank (getPerfClass a) <= class_rank (getPerfClass b).
Proof.
  intros H. unfold getPerfClass, lt.
  destruct (PrimFloat.ltb a 1%float) eqn:A1; [cbn; lia|].
  rewrite (ltb_false_up a b 1%float H A1).
  destruct (PrimFloat.ltb a 5%float) eqn:A5; [destruct (PrimFloat.ltb b 5%float), (PrimFloat.ltb b 10%float); cbn; lia|].
  rewrite (ltb_false_up a b 5%float H A5).
  destruct (PrimFloat.ltb a 10%float) eqn:A10; [destruct (PrimFloat.ltb b 10%float); cbn; lia|].
  rewrite (ltb_false_up a b 10%float H A10). cbn. lia.
Qed.

Lemma nan_is_unordered x c : PrimFloat.eqb x x = false -> PrimFloat.ltb x c = false.
Proof.
  rewrite FloatAxioms.eqb_spec, FloatAxioms.ltb_spec. unfold SFeqb, SFltb.
  destruct (Prim2SF x) as [s|s| |s m e]; cbn; try discriminate; try reflexivity.
  - destruct s; discriminate.
  - destruct s; rewrite Z.compare_refl, Pos.compare_cont_refl; discriminate.
Qed.

Lemma getPerfClass_is_monotone_witness :
  class_rank (getPerfClass 0.5%float) <= class_rank (getPerfClass 7%float).
Proof. apply (getPerfClass_is_monotone 0.5%float 7%float). reflexivity. Defined.

(** X12. A value that is not a number (the only one that differs from
    itself) is classed as bad: every comparison of [getPerfClass] fails
    on it. *)
Theorem getPerfClass_of_NaN x :
  PrimFloat.eqb x x = false -> getPerfClass x = "perf-bad".
Proof.
  intros H. unfold getPerfClass, lt. rewrite !(nan_is_unordered x _ H). reflexivity.
Qed.

Lemma getPerfClass_of_NaN_witness : getPerfClass nan = "perf-bad".
Proof. apply (getPerfClass_of_NaN nan). reflexivity. Defined.

(** ** The loop clocks itself *)

Lemma schedule_next_paced w0 w :
  canvasRef w = canvasRef w0 -> isRendering w = isRendering w0 ->
  animation_frames w = animation_frames w0 ->
  next_animation_frame w = next_animation_frame w0 ->
  paced w0 (Return (schedule_next w)).
Proof.
  intros H1 H2 H3 H4. unfold schedule_next. cbn [paced]. rewrite H2.
  destruct (isRendering w0); cbn; rewrite ?H3, ?H4; auto.
Qed.

Lemma catch_error_untouched e w :
  canvasRef (catch_error e w) = canvasRef w
  /\ isRendering (catch_error e w) = isRendering w
  /\ animation_frames (catch_error e w) = animation_frames w
  /\ next_animation_frame (catch_error e w) = next_animation_frame w.
Proof.
  unfold catch_error, Date_now. cbv zeta. destruct (gt _ _); repeat split; reflexivity.
Qed.

Lemma caught_paced e w w' :
  loop_state_kept w w' -> paced w (Return (schedule_next (catch_error e w'))).
Proof.
  intros (L1 & L2 & _ & _ & _ & _ & L7 & L8).
  destruct (catch_error_untouched e w') as (H1 & H2 & H3 & H4).
  apply schedule_next_paced; congruence.
Qed.

Lemma loop_state_kept_refl w : loop_state_kept w w.
Proof. repeat split. Qed.

Lemma update_statistics_untouched w :
  canvasRef (update_statistics w) = canvasRef w
  /\ isRendering (update_statistics w) = isRendering w
  /\ animation_frames (update_statistics w) = animation_frames w
  /\ next_animation_frame (update_statistics w) = next_animation_frame w.
Proof.
  unfold update_statistics, updateFps, performance_now. cbv zeta.
  destruct (ge _ _); repeat split; reflexivity.
Qed.

Lemma store_sample_untouched sample w :
  canvasRef (store_sample sample w) = canvasRef w
  /\ isRendering (store_sample sample w) = isRendering w
  /\ animation_frames (store_sample sample w) = animation_frames w
  /\ next_animation_frame (store_sample sample w) = next_animation_frame w.
Proof.
  rewrite store_sample_unfold. cbv zeta. destruct (0 <? _)%nat; repeat split; reflexivity.
Qed.

Lemma drawn_paced sample w w' :
  loop_state_kept w w' ->
  paced w (Return (schedule_next (update_statistics (store_sample sample w')))).
Proof.
  intros (L1 & L2 & _ & _ & _ & _ & L7 & L8).
  destruct (store_sample_untouched sample w') as (S1 & S2 & S3 & S4).
  destruct (update_statistics_untouched (store_sample sample w')) as (U1 & U2 & U3 & U4).
  apply schedule_next_paced; congruence.
Qed.

Lemma Part000_renderLoop_starts w : starts_in_pace w (Part000.renderLoop w).
Proof.
  unfold Part000.renderLoop.
  destruct (isRendering w) eqn:Hr; cbn [negb]; [|repeat split; auto; intros; congruence].
  cbn [performance_now].
  cbn -[pretty schedule_next catch_error update_statistics store_sample paced].
  destruct (canvasRef w) as [canvas|] eqn:Hc;
    [|repeat split; try reflexivity; intros _; unfold has_context; rewrite Hc; reflexivity].
  unfold getContext.
  destruct (has_2d_context canvas) eqn:Hctx;
    [|repeat split; try reflexivity; intros _; unfold has_context; rewrite Hc; exact Hctx].
  cbn [starts_in_pace].
  split; [exact Hr|]. split; [unfold has_context; rewrite Hc; exact Hctx|].
  do 3 (split; [reflexivity|]).
  intros [response|e] w1; [|apply caught_paced, loop_state_kept_refl].
  destruct (ok response); cbn [negb]; [|apply caught_paced, loop_state_kept_refl].
  cbn [paced]. do 3 (split; [reflexivity|]).
  intros [blob|e] w2; [|apply caught_paced, loop_state_kept_refl].
  cbn [paced]. do 3 (split; [reflexivity|]).
  intros [bitmap|e] w3; [|apply caught_paced, loop_state_kept_refl].
  apply drawn_paced. repeat split.
Qed.

Lemma AppVue_renderLoop_starts w : starts_in_pace w (AppVue.renderLoop w).
Proof.
  unfold AppVue.renderLoop.
  destruct (isRendering w) eqn:Hr; cbn [negb]; [|repeat split; auto; intros; congruence].
  cbn [performance_now].
  cbn -[schedule_next catch_error update_statistics store_sample paced AppVue.decode_frame].
  destruct (canvasRef w) as [canvas|] eqn:Hc;
    [|repeat split; try reflexivity; intros _; unfold has_context; rewrite Hc; reflexivity].
  unfold getContext.
  destruct (has_2d_context canvas) eqn:Hctx;
    [|repeat split; try reflexivity; intros _; unfold has_context; rewrite Hc; exact Hctx].
  cbn [starts_in_pace].
  split; [exact Hr|]. split; [unfold has_context; rewrite Hc; exact Hctx|].
  do 3 (split; [reflexivity|]).
  intros [response|e] w1; [|apply caught_paced, loop_state_kept_refl].
  destruct (AppVue.decode_frame response) as [image|e].
  - apply drawn_paced. repeat split.
  - apply caught_paced. repeat split.
Qed.

Lemma has_context_canvas w w' : canvasRef w' = canvasRef w -> has_context w' = has_context w.
Proof. unfold has_context. intros ->. reflexivity. Qed.

Lemma iterations_adopt w ts s :
  iterations_in_flight (adopt w ts s)
  = iterations_in_flight s + length (List.filter iterating ts).
Proof.
  unfold iterations_in_flight, adopt. cbn [inflight].
  rewrite List.filter_app, length_app. reflexivity.
Qed.

Lemma iterations_delete i t s :
  inflight s !! i = Some t ->
  iterations_in_flight (mkSystem (world s) (delete i (inflight s)) (issued s))
  + (if iterating t then 1 else 0)
  = iterations_in_flight s.
Proof.
  unfold iterations_in_flight. cbn [inflight]. generalize (inflight s) as l.
  induction i as [|i IH]; intros [|x l]; try discriminate.
  - intros [= ->]. cbn. destruct (iterating t); cbn; lia.
  - intros H. cbn in H. specialize (IH l H).
    change (delete (S i) (x :: l)) with (x :: delete i l).
    cbn [List.filter]. destruct (iterating x); cbn [length]; lia.
Qed.

Lemma updateBackendStats_in_pace w : settles_in_pace (updateBackendStats w).
Proof. intros [stats|e] w'; split; reflexivity. Qed.

Lemma pointer_handlers_quiet :
  (forall e, quiet (Part000.handleMouseDown e))
  /\ (forall e, quiet (Part000.handleMouseUp e))
  /\ (forall e, quiet (Part000.handleMouseMove e))
  /\ (forall e, quiet (Part000.handleWheel e))
  /\ quiet Part000.handleContextMenu.
Proof.
  repeat split;
    unfold Part000.handleMouseDown, Part000.handleMouseUp, Part000.handleMouseMove,
      Part000.handleWheel, Part000.handleContextMenu;
    repeat match goal with
           | |- context [if ?b then _ else _] => destruct b
           end;
    cbn; try reflexivity;
    repeat constructor; intros [[]|?] ?; split; reflexivity.
Qed.

Lemma startRendering_clocked w :
  isRendering w = false ->
  isRendering (fst (startRendering w)) = true
  /\ canvasRef (fst (startRendering w)) = canvasRef w
  /\ animation_frames (fst (startRendering w)) = animation_frames w ++ [next_animation_frame w]
  /\ List.filter iterating (snd (startRendering w)) = []
  /\ Forall settles_in_pace (snd (startRendering w)).
Proof.
  intros Hr. unfold startRendering. rewrite Hr. cbn.
  repeat split. repeat constructor. intros [stats|e] w'; split; reflexivity.
Qed.

Lemma self_clocked_neutral s s' :
  self_clocked s ->
  canvasRef (world s') = canvasRef (world s) ->
  isRendering (world s') = isRendering (world s) ->
  animation_frames (world s') = animation_frames (world s) ->
  iterations_in_flight s' = iterations_in_flight s ->
  Forall settles_in_pace (inflight s') ->
  self_clocked s'.
Proof.
  intros (J1 & J2 & J3 & J4) Hc Hr Hf Hi Hs. unfold self_clocked.
  rewrite (has_context_canvas _ _ Hc), Hr, Hf, Hi. auto.
Qed.

Section SelfClockedLoop.
Variable renderLoop : World -> task.
Variable pointer_listeners : bool.
Hypothesis renderLoop_tame : forall w, tame true w (renderLoop w).
Hypothesis renderLoop_starts : forall w, starts_in_pace w (renderLoop w).

Lemma pointer_self_clocked h s s' :
  quiet h -> (forall w, control_kept w (Part000.after (h w))) ->
  self_clocked s -> pointer pointer_listeners h s = Some s' ->
  self_clocked s' /\ canvasRef (world s') = canvasRef (world s).
Proof.
  intros Hq Hk Hs. unfold pointer. destruct pointer_listeners; intros [= <-]; [|auto].
  destruct (Hq (world s)) as (Q1 & Q2 & Q3 & Q4).
  split; [|exact Q1].
  apply (self_clocked_neutral s); cbn [adopt world inflight]; auto.
  - apply (Hk (world s)).
  - rewrite iterations_adopt, Q3. cbn. lia.
  - apply Forall_app. split; [apply Hs | exact Q4].
Qed.

Lemma step_self_clocked ev s s' :
  consistent s -> self_clocked s -> ev <> stop_clicked ->
  step renderLoop pointer_listeners ev s = Some s' ->
  self_clocked s' /\ canvasRef (world s') = canvasRef (world s).
Proof.
  intros [Hw Ht] Hs Hev Hstep. pose proof Hs as (J1 & J2 & J3 & J4).
  destruct pointer_handlers_tame as (Pd & Pu & Pm & Pw & Pc).
  destruct pointer_handlers_quiet as (Qd & Qu & Qm & Qw & Qc).
  destruct ev as [| | id | id | i st | e | e | e | e |]; cbn [step] in Hstep.
  - (* Start *)
    injection Hstep as <-.
    destruct (isRendering (world s)) eqn:Hr.
    + unfold startRendering. rewrite Hr. cbn [fst snd]. split; [|reflexivity].
      apply (self_clocked_neutral s); cbn [adopt world inflight]; auto.
      * rewrite iterations_adopt. cbn. lia.
      * rewrite app_nil_r. exact J4.
    + destruct (startRendering_clocked (world s) Hr) as (S1 & S2 & S3 & S4 & S5).
      destruct (J2 eq_refl) as [F0 I0].
      split; [|exact S2]. unfold self_clocked.
      rewrite iterations_adopt, S4, I0. cbn [adopt world inflight].
      rewrite S1, S3, F0. cbn. repeat split; try lia; try discriminate.
      apply Forall_app. split; assumption.
  - congruence.
  - (* an animation frame fires *)
    destruct (decide _) as [Hin|]; [|discriminate]. injection Hstep as <-.
    assert (Hone : animation_frames (world s) = [id]).
    { destruct (animation_frames (world s)) as [|a [|b l]]; cbn in J1; [inversion Hin| |lia].
      apply list_elem_of_singleton in Hin. congruence. }
    assert (Hr : isRendering (world s) = true).
    { destruct (isRendering (world s)); [reflexivity|].
      destruct (J2 eq_refl) as [F0 _]. congruence. }
    assert (I0 : iterations_in_flight s = 0) by (rewrite Hone in J1; cbn in J1; lia).
    assert (Hnone : animation_frames (cancelAnimationFrame id (world s)) = []).
    { unfold cancelAnimationFrame. cbn. rewrite Hone. apply filter_ne_singleton. }
    pose proof (renderLoop_tame (cancelAnimationFrame id (world s))) as Htame.
    pose proof (renderLoop_starts (cancelAnimationFrame id (world s))) as Hstart.
    unfold run_task.
    destruct (renderLoop (cancelAnimationFrame id (world s))) as [w' | w' e | A w' r k];
      cbn [spawn fst snd starts_in_pace tame] in *.
    + destruct Hstart as (C1 & C2 & C3). destruct Htame as (K1 & _).
      split; [|exact C1]. unfold self_clocked.
      rewrite iterations_adopt, I0. cbn [adopt world inflight].
      rewrite (has_context_canvas _ _ C1), K1, C2, Hnone. cbn.
      rewrite app_nil_r. repeat split; try lia; try congruence.
      intros _ Hctx. rewrite (C3 Hr) in Hctx. discriminate.
    + destruct Hstart.
    + destruct Hstart as (_ & _ & C3 & C4 & C5 & C6). destruct Htame as ((K1 & _) & _).
      split; [|exact C4]. unfold self_clocked.
      rewrite iterations_adopt, I0. cbn [adopt world inflight].
      rewrite K1, C5, Hnone. cbn [List.filter iterating]. rewrite C3. cbn.
      repeat split; try lia; try congruence.
      apply Forall_app. split; [exact J4|]. repeat constructor.
      cbn [settles_in_pace]. rewrite C3. exact C6.
  - (* the interval elapses *)
    destruct (decide _); [|discriminate]. injection Hstep as <-.
    unfold run_task, updateBackendStats. cbn [spawn fst snd].
    split; [|reflexivity].
    apply (self_clocked_neutral s); cbn [adopt world inflight]; auto.
    + rewrite iterations_adopt. cbn. lia.
    + apply Forall_app. split; [exact J4|]. repeat constructor.
      apply (updateBackendStats_in_pace (world s)).
  - (* a request settles *)
    destruct (inflight s !! i) as [t|] eqn:Hi; [|discriminate]. cbn in Hstep.
    destruct (resume t st (world s)) as [t'|] eqn:Hres; [|discriminate].
    cbn in Hstep. injection Hstep as <-.
    pose proof (iterations_delete i t s Hi) as Hdel.
    pose proof (Forall_delete _ _ i J4) as J4'.
    rewrite Forall_lookup in Ht, J4.
    specialize (Ht i t Hi). specialize (J4 i t Hi).
    destruct t as [| | A w r k]; try discriminate. cbn in Hres.
    destruct (deliver r st) as [o|]; [|discriminate]. injection Hres as <-.
    cbn [settles_tamely settles_in_pace iterating] in *.
    specialize (Ht o (world s)).
    set (s0 := mkSystem (world s) (delete i (inflight s)) (issued s)) in *.
    unfold run_task.
    destruct (is_frame_request (Issued r)) eqn:Hfr.
    + specialize (J4 o (world s)).
      assert (F0 : animation_frames (world s) = []).
      { destruct (animation_frames (world s)); [reflexivity|]. cbn in J1. lia. }
      assert (I0 : iterations_in_flight s0 = 0) by lia.
      assert (Hr : isRendering (world s) = true).
      { destruct (isRendering (world s)); [reflexivity|].
        destruct (J2 eq_refl) as [_ I]. lia. }
      destruct (k o (world s)) as [w' | w' e | B w' r' k'];
        cbn [spawn fst snd paced tame] in *.
      * destruct J4 as (C1 & C2). destruct Ht as (K1 & _).
        split; [|exact C1]. unfold self_clocked.
        rewrite iterations_adopt, I0. cbn [adopt world inflight].
        rewrite K1, C2, Hr, F0. cbn. rewrite app_nil_r.
        repeat split; try lia; try congruence.
      * destruct J4.
      * destruct J4 as (C1 & C2 & C3 & C4). destruct Ht as ((K1 & _) & _).
        split; [|exact C2]. unfold self_clocked.
        rewrite iterations_adopt, I0. cbn [adopt world inflight].
        rewrite K1, C3, F0. cbn [List.filter iterating]. rewrite C1. cbn.
        repeat split; try lia; try congruence.
        apply Forall_app. split; [exact J4'|]. repeat constructor.
        cbn [settles_in_pace]. rewrite C1. exact C4.
    + specialize (J4 o (world s)).
      assert (I0 : iterations_in_flight s0 = iterations_in_flight s) by lia.
      destruct (k o (world s)) as [w' | w' e | B w' r' k'];
        cbn [spawn fst snd inert tame] in *.
      * destruct J4 as (C1 & C2). destruct Ht as (K1 & _).
        split; [|exact C1].
        apply (self_clocked_neutral s); cbn [adopt world inflight]; auto.
        -- rewrite iterations_adopt, I0. cbn. lia.
        -- rewrite app_nil_r. exact J4'.
      * destruct J4 as (C1 & C2). destruct Ht as (K1 & _).
        split; [|exact C1].
        apply (self_clocked_neutral s); cbn [adopt world inflight]; auto.
        -- rewrite iterations_adopt, I0. cbn. lia.
        -- rewrite app_nil_r. exact J4'.
      * destruct J4 as (C1 & C2 & C3 & C4). destruct Ht as ((K1 & _) & _).
        split; [|exact C2].
        apply (self_clocked_neutral s); cbn [adopt world inflight]; auto.
        -- rewrite iterations_adopt, I0. cbn [List.filter iterating]. rewrite C1. cbn. lia.
        -- apply Forall_app. split; [exact J4'|]. repeat constructor.
           cbn [settles_in_pace]. rewrite C1. exact C4.
  - exact (pointer_self_clocked (Part000.handleMouseDown e) s s' (Qd e) (fun w => proj1 (Pd e w)) Hs Hstep).
  - exact (pointer_self_clocked (Part000.handleMouseUp e) s s' (Qu e) (fun w => proj1 (Pu e w)) Hs Hstep).
  - exact (pointer_self_clocked (Part000.handleMouseMove e) s s' (Qm e) (fun w => proj1 (Pm e w)) Hs Hstep).
  - exact (pointer_self_clocked (Part000.handleWheel e) s s' (Qw e) (fun w => proj1 (Pw e w)) Hs Hstep).
  - exact (pointer_self_clocked (Part000.handleContextMenu) s s' (Qc) (fun w => proj1 (Pc w)) Hs Hstep).
Qed.

Lemma run_self_clocked evs s s' :
  consistent s -> self_clocked s -> stop_clicked ∉ evs ->
  run renderLoop pointer_listeners evs s = Some s' ->
  self_clocked s' /\ canvasRef (world s') = canvasRef (world s).
Proof.
  revert s. induction evs as [|ev evs IH]; intros s Hc Hs Hev; cbn.
  - intros [= <-]. split; [exact Hs | reflexivity].
  - destruct (step renderLoop pointer_listeners ev s) as [s1|] eqn:H1; [|discriminate].
    cbn. intros Hrun.
    assert (Hne : ev <> stop_clicked) by (intros ->; apply Hev; left).
    destruct (step_self_clocked ev s s1 Hc Hs Hne H1) as [Hs1 Hc1].
    destruct (IH s1) as [Hs' Hc']; eauto using step_consistent.
    { intros Hin. apply Hev. right. exact Hin. }
    split; [exact Hs' | congruence].
Qed.

End SelfClockedLoop.

Lemma renderLoop_of_starts r w : starts_in_pace w (renderLoop_of r w).
Proof. destruct r; [apply AppVue_renderLoop_starts | apply Part000_renderLoop_starts]. Qed.

Lemma boot_self_clocked canvas performance_clock Date_clock :
  self_clocked (boot (initial canvas performance_clock Date_clock)).
Proof.
  unfold self_clocked. cbn. repeat split; try lia; try discriminate. constructor.
Qed.

(** X13. As long as Stop is never clicked the loop clocks itself.  In every
    state either revision reaches from the loaded component through
    clicks on Start, animation frames, elapsed intervals, settling
    requests and pointer events, the pending animation-frame requests and
    the iterations of [renderLoop] still waiting for a request are at most
    one together; there is none while the component is not rendering, and
    exactly one while it is rendering with a canvas that gives a 2D
    context: the loop neither doubles nor dies. *)
Theorem frame_loop_is_self_clocked r canvas performance_clock Date_clock evs s :
  stop_clicked ∉ evs ->
  client_run r evs (boot (initial canvas performance_clock Date_clock)) = Some s ->
  length (animation_frames (world s)) + iterations_in_flight s <= 1
  /\ (isRendering (world s) = false ->
      animation_frames (world s) = [] /\ iterations_in_flight s = 0)
  /\ (isRendering (world s) = true ->
      (exists c, canvas = Some c /\ has_2d_context c = true) ->
      length (animation_frames (world s)) + iterations_in_flight s = 1).
Proof.
  intros Hev Hrun.
  destruct (run_self_clocked (renderLoop_of r) (has_pointer_listeners r)
              (renderLoop_of_tame r) (renderLoop_of_starts r) evs _ s
              (boot_consistent canvas performance_clock Date_clock)
              (boot_self_clocked canvas performance_clock Date_clock) Hev Hrun)
    as [(J1 & J2 & J3 & _) Hc].
  split; [exact J1|]. split; [exact J2|].
  intros Hr (c & -> & Hctx). apply J3; [exact Hr|].
  unfold has_context. rewrite Hc. exact Hctx.
Qed.

Lemma frame_loop_is_self_clocked_witness :
  match client_run binary_endpoint
          [start_clicked; animation_frame 1; settled 1 (rejected (Thrown "refused"))]
          (boot loaded) with
  | Some s => length (animation_frames (world s)) + iterations_in_flight s = 1
  | None => False
  end.
Proof.
  pose proof (frame_loop_is_self_clocked binary_endpoint (Some (mkCanvas true))
                still_clock still_clock
                [start_clicked; animation_frame 1; settled 1 (rejected (Thrown "refused"))])
    as H.
  change (initial (Some (mkCanvas true)) still_clock still_clock) with loaded in H.
  assert (Hev : stop_clicked ∉
                [start_clicked; animation_frame 1; settled 1 (rejected (Thrown "refused"))]).
  { rewrite !not_elem_of_cons. repeat split; try discriminate. apply not_elem_of_nil. }
  destruct (client_run binary_endpoint
              [start_clicked; animation_frame 1; settled 1 (rejected (Thrown "refused"))]
              (boot loaded)) as [s|] eqn:E.
  - destruct (H s Hev eq_refl) as (_ & _ & H3).
    apply H3; [|exists (mkCanvas true); split; reflexivity].
    apply (f_equal (fun o => match o with Some s => isRendering (world s) | None => false end))
      in E.
    vm_compute in E. symmetry. exact E.
  - apply (f_equal defined) in E. vm_compute in E. discriminate.
Defined.
